(** * Stock market risk analysis: Altman Z-Score, Merton model, combined decision

    A shallow embedding of the quantitative core of the backend
    ([company.py], [models.py], [schemas.py], [evaluation.py]) and the
    properties of its specification.

    Numbers.  The program computes on binary64 values (numpy [float64] and
    Python [float]).  They are idealised here as the extended reals: a finite
    value carries a real number and arithmetic on finite values is exact, the
    two infinities and NaN behave as IEEE 754 prescribes.  Rounding error,
    overflow of finite values and the sign of zero are not modelled. *)

From Stdlib Require Import Reals Lra Lia List ZArith String Bool.
Import ListNotations.
Open Scope string_scope.
Open Scope R_scope.

(** ** Floating-point values *)

Module Float.

Inductive float : Type :=
| Fin (x : R)
| PInf
| NInf
| NaN.

Definition is_finite (a : float) : bool :=
  match a with Fin _ => true | _ => false end.

Definition is_nan (a : float) : bool :=
  match a with NaN => true | _ => false end.

Definition of_Z (n : Z) : float := Fin (IZR n).

(** Sign of a finite real: the comparison used to pick the infinity
    produced by a product or quotient. *)
Definition Rltb (x y : R) : bool := if Rlt_dec x y then true else false.
Definition Rleb (x y : R) : bool := if Rle_dec x y then true else false.
Definition Reqb (x y : R) : bool := if Req_EM_T x y then true else false.

Definition neg (a : float) : float :=
  match a with
  | Fin x => Fin (- x)
  | PInf => NInf
  | NInf => PInf
  | NaN => NaN
  end.

Definition add (a b : float) : float :=
  match a, b with
  | NaN, _ | _, NaN => NaN
  | Fin x, Fin y => Fin (x + y)
  | PInf, NInf | NInf, PInf => NaN
  | PInf, _ | _, PInf => PInf
  | NInf, _ | _, NInf => NInf
  end.

Definition sub (a b : float) : float := add a (neg b).

(** [inf_times s x]: the infinity of sign [s] (true is positive) scaled by
    the finite [x]; zero times infinity is NaN. *)
Definition inf_times (positive : bool) (x : R) : float :=
  if Reqb x 0 then NaN
  else if Bool.eqb positive (Rltb 0 x) then PInf else NInf.

Definition mul (a b : float) : float :=
  match a, b with
  | NaN, _ | _, NaN => NaN
  | Fin x, Fin y => Fin (x * y)
  | PInf, Fin y => inf_times true y
  | NInf, Fin y => inf_times false y
  | Fin x, PInf => inf_times true x
  | Fin x, NInf => inf_times false x
  | PInf, PInf | NInf, NInf => PInf
  | PInf, NInf | NInf, PInf => NInf
  end.

(** numpy division: no exception is raised on a zero divisor; a non-zero
    finite value over zero is an infinity, zero over zero is NaN. *)
Definition div (a b : float) : float :=
  match a, b with
  | NaN, _ | _, NaN => NaN
  | Fin x, Fin y =>
      if Reqb y 0 then
        (if Reqb x 0 then NaN else if Rltb 0 x then PInf else NInf)
      else Fin (x / y)
  | Fin _, (PInf | NInf) => Fin 0
  | PInf, Fin y => if Rleb 0 y then PInf else NInf
  | NInf, Fin y => if Rleb 0 y then NInf else PInf
  | (PInf | NInf), (PInf | NInf) => NaN
  end.

(** Comparisons: every comparison with NaN is false. *)
Definition ltb (a b : float) : bool :=
  match a, b with
  | NaN, _ | _, NaN => false
  | Fin x, Fin y => Rltb x y
  | NInf, (Fin _ | PInf) => true
  | Fin _, PInf => true
  | _, _ => false
  end.

Definition leb (a b : float) : bool :=
  match a, b with
  | NaN, _ | _, NaN => false
  | Fin x, Fin y => Rleb x y
  | NInf, _ => true
  | _, PInf => true
  | _, _ => false
  end.

Definition gtb (a b : float) : bool := ltb b a.
Definition geb (a b : float) : bool := leb b a.

Definition eqb (a b : float) : bool :=
  match a, b with
  | Fin x, Fin y => Reqb x y
  | PInf, PInf | NInf, NInf => true
  | _, _ => false
  end.

(** [np.log] and [np.sqrt]. *)
Definition log (a : float) : float :=
  match a with
  | Fin x => if Rltb 0 x then Fin (ln x) else if Reqb x 0 then NInf else NaN
  | PInf => PInf
  | NInf | NaN => NaN
  end.

Definition sqrt (a : float) : float :=
  match a with
  | Fin x => if Rleb 0 x then Fin (R_sqrt.sqrt x) else NaN
  | PInf => PInf
  | NInf | NaN => NaN
  end.

(** Round half to even of a real, then Python's [round(x, ndigits)]:
    infinities and NaN are returned unchanged. *)
Definition rint (x : R) : Z :=
  let f := Int_part x in
  let fr := x - IZR f in
  if Rltb fr (1 / 2) then f
  else if Rltb (1 / 2) fr then (f + 1)%Z
  else if Z.even f then f else (f + 1)%Z.

Definition round (a : float) (ndigits : nat) : float :=
  match a with
  | Fin x => Fin (IZR (rint (x * 10 ^ ndigits)) / 10 ^ ndigits)
  | _ => a
  end.

End Float.

Import Float.

Declare Scope float_scope.
Delimit Scope float_scope with float.
Bind Scope float_scope with float.
Infix "+" := Float.add : float_scope.
Infix "-" := Float.sub : float_scope.
Infix "*" := Float.mul : float_scope.
Infix "/" := Float.div : float_scope.
Infix "<?" := Float.ltb (at level 70) : float_scope.
Infix "<=?" := Float.leb (at level 70) : float_scope.
Infix ">?" := Float.gtb (at level 70) : float_scope.
Infix ">=?" := Float.geb (at level 70) : float_scope.
Infix "==?" := Float.eqb (at level 70) : float_scope.

(** ** Python exceptions and fallible computations *)

(** The exceptions the backend raises or lets escape.  [ValidationError] is
    pydantic's, a subclass of [ValueError]. *)
Inductive exn : Type :=
| ValueError
| RuntimeError
| KeyError
| IndexError
| ValidationError.

Definition is_ValueError (e : exn) : bool :=
  match e with ValueError | ValidationError => true | _ => false end.

Inductive result (A : Type) : Type :=
| Ok (a : A)
| Raise (e : exn).
Arguments Ok {A} a.
Arguments Raise {A} e.

Definition bind {A B : Type} (m : result A) (k : A -> result B) : result B :=
  match m with
  | Ok a => k a
  | Raise e => Raise e
  end.

Notation "x <- m ;; k" := (bind m (fun x => k))
  (at level 61, m at next level, right associativity).

(** ** The part of pandas the backend uses *)

Module Pandas.

Definition Series : Type := list float.

(** A frame is read by row label: each row holds one value per reporting
    period, most recent first. *)
Definition DataFrame : Type := list (string * Series).

Fixpoint loc (df : DataFrame) (label : string) : result Series :=
  match df with
  | [] => Raise KeyError
  | (k, s) :: rest => if String.eqb k label then Ok s else loc rest label
  end.

(** [s.iloc[0]] *)
Definition iloc0 (s : Series) : result float :=
  match s with
  | [] => Raise IndexError
  | x :: _ => Ok x
  end.

(** [df.iloc[:, :n]] *)
Definition iloc_cols (n : nat) (df : DataFrame) : DataFrame :=
  map (fun row => (fst row, firstn n (snd row))) df.

(** [s.pct_change()]: the first entry has no predecessor and is NaN, every
    other entry is [s[i] / s[i-1] - 1].  Missing observations are not
    forward-filled. *)
Fixpoint pct_from (prev : float) (s : Series) : Series :=
  match s with
  | [] => []
  | x :: rest => (x / prev - Fin 1)%float :: pct_from x rest
  end.

Definition pct_change (s : Series) : Series :=
  match s with
  | [] => []
  | x :: rest => NaN :: pct_from x rest
  end.

Definition dropna (s : Series) : Series :=
  filter (fun x => negb (is_nan x)) s.

Definition sum (s : Series) : float := fold_left Float.add s (Fin 0).

Definition mean (s : Series) : float :=
  (sum s / of_Z (Z.of_nat (List.length s)))%float.

(** [s.std()]: sample standard deviation (one delta degree of freedom);
    NaN when there are fewer than two values. *)
Definition std (s : Series) : float :=
  if (List.length s <? 2)%nat then NaN
  else
    let m := mean s in
    Float.sqrt
      (sum (map (fun x => ((x - m) * (x - m))%float) s)
       / of_Z (Z.of_nat (List.length s - 1)))%float.

End Pandas.

Import Pandas.

(** ** The market-data provider (yfinance) *)

(** What [yf.Ticker(t)] exposes for a ticker.  [history_close] is the
    [Close] column of [history(period='1d')]; [sharesOutstanding] is absent
    when [info] has no such key. *)
Record TickerData : Type := {
  balance_sheet : DataFrame;
  income_stmt : DataFrame;
  history_close : Series;
  sharesOutstanding : option Z
}.

(** A provider answers a ticker with its data, or fails (any exception). *)
Definition Provider : Type := string -> option TickerData.

(** The requests sent to the provider so far. *)
Definition CallLog : Type := list string.

(** ** company.py *)

Module Company.

Record Company : Type := {
  ticker : string;
  industry_type : Z;
  _bs : DataFrame;
  _ist : DataFrame;
  _current_price : float;
  _shares_outstanding : Z
}.

Definition valid_industry_type (industry_type : Z) : bool :=
  (industry_type =? 1)%Z || (industry_type =? 2)%Z || (industry_type =? 3)%Z.

(** [Company.__init__]: the industry check comes first; only then is the
    provider called, and every failure while reading its answer becomes a
    [RuntimeError]. *)
Definition __init__ (yf : Provider) (ticker : string) (industry_type : Z)
    (log : CallLog) : result Company * CallLog :=
  if negb (valid_industry_type industry_type) then (Raise ValueError, log)
  else
    let log' := (log ++ [ticker])%list in
    match yf ticker with
    | None => (Raise RuntimeError, log')
    | Some _obj =>
        match iloc0 (history_close _obj), sharesOutstanding _obj with
        | Ok price, Some shares =>
            (Ok {| ticker := ticker;
                   industry_type := industry_type;
                   _bs := iloc_cols 4 (balance_sheet _obj);
                   _ist := iloc_cols 4 (income_stmt _obj);
                   _current_price := price;
                   _shares_outstanding := shares |}, log')
        | _, _ => (Raise RuntimeError, log')
        end
    end.

Definition bs_item (self : Company) (label : string) : result float :=
  s <- loc (_bs self) label ;; iloc0 s.

Definition ist_item (self : Company) (label : string) : result float :=
  s <- loc (_ist self) label ;; iloc0 s.

(** Balance sheet items *)
Definition total_assets (self : Company) := bs_item self "Total Assets".
Definition working_capital (self : Company) := bs_item self "Working Capital".
Definition retained_earnings (self : Company) :=
  bs_item self "Retained Earnings".
Definition total_liabilities (self : Company) :=
  bs_item self "Total Liabilities Net Minority Interest".
Definition current_liabilities (self : Company) :=
  bs_item self "Current Liabilities".
Definition book_equity (self : Company) := bs_item self "Stockholders Equity".
Definition market_equity (self : Company) : result float :=
  Ok (_current_price self * of_Z (_shares_outstanding self))%float.

(** Income statement items *)
Definition ebit (self : Company) := ist_item self "EBIT".
Definition total_revenue (self : Company) := ist_item self "Total Revenue".

(** [a() / b()]: the numerator is evaluated first. *)
Definition ratio (num den : result float) : result float :=
  n <- num ;; d <- den ;; Ok (n / d)%float.

(** Altman ratios *)
Definition x1 (self : Company) := ratio (working_capital self) (total_assets self).
Definition x2 (self : Company) := ratio (retained_earnings self) (total_assets self).
Definition x3 (self : Company) := ratio (ebit self) (total_assets self).
Definition x4 (self : Company) := ratio (market_equity self) (total_liabilities self).
Definition x4_mod (self : Company) := ratio (book_equity self) (total_liabilities self).
Definition x5 (self : Company) := ratio (total_revenue self) (total_assets self).

End Company.

Import Company.

(** ** scipy.stats.norm.cdf *)

(** The standard normal density without its normalising constant, and its
    integral between any two points. *)
Definition gauss (t : R) : R := exp (- (t * t) / 2).

Definition gauss_integrable (a b : R) : Riemann_integrable gauss a b :=
  let cont : continuity gauss :=
    ltac:(unfold gauss; reg) in
  match Rle_dec a b with
  | left Hab =>
      continuity_implies_RiemannInt Hab (fun x _ => cont x)
  | right Hba =>
      RiemannInt_P1
        (continuity_implies_RiemannInt
           (Rlt_le _ _ (Rnot_le_lt _ _ Hba)) (fun x _ => cont x))
  end.

(** The standard normal cumulative distribution function on the reals:
    one half plus the normalised integral of the density from [0] to [x]. *)
Definition Phi (x : R) : R :=
  1 / 2 + RiemannInt (gauss_integrable 0 x) / R_sqrt.sqrt (2 * PI).

Definition norm_cdf (a : float) : float :=
  match a with
  | Fin x => Fin (Phi x)
  | PInf => Fin 1
  | NInf => Fin 0
  | NaN => NaN
  end.

(** ** models.py *)

Module Models.

(** The three concrete subclasses of [AltmanValuationModel]. *)
Inductive AltmanValuationModel : Type :=
| AltmanClassic
| AltmanPrime
| AltmanEmergingMarkets.

(** The class attributes; both are finite constants in every subclass. *)
Definition SAFE_THRESHOLD (self : AltmanValuationModel) : R :=
  match self with
  | AltmanClassic => 2.99
  | AltmanPrime => 2.6
  | AltmanEmergingMarkets => 2.6
  end.

Definition DISTRESS_THRESHOLD (self : AltmanValuationModel) : R :=
  match self with
  | AltmanClassic => 1.81
  | AltmanPrime => 1.1
  | AltmanEmergingMarkets => 1.1
  end.

Definition classify (self : AltmanValuationModel) (z_score : float) : string :=
  if (z_score >? Fin (SAFE_THRESHOLD self))%float then "Safe Zone"
  else if (z_score >=? Fin (DISTRESS_THRESHOLD self))%float then "Grey Zone"
  else "Distress Zone".

Definition for_industry_type (industry_type : Z) : result AltmanValuationModel :=
  if (industry_type =? 1)%Z then Ok AltmanClassic
  else if (industry_type =? 2)%Z then Ok AltmanPrime
  else if (industry_type =? 3)%Z then Ok AltmanEmergingMarkets
  else Raise ValueError.

(** The [ratios] dictionary: its keys are always [x1] to [x5]. *)
Record Ratios : Type := {
  r_x1 : float;
  r_x2 : float;
  r_x3 : float;
  r_x4 : float;
  r_x5 : float
}.

Definition mk_ratios (x1 x2 x3 x4 x5 : float) : Ratios :=
  {| r_x1 := round x1 6;
     r_x2 := round x2 6;
     r_x3 := round x3 6;
     r_x4 := round x4 6;
     r_x5 := round x5 6 |}.

Definition compute (self : AltmanValuationModel) (company : Company)
    : result (float * Ratios) :=
  match self with
  | AltmanClassic =>
      x1 <- Company.x1 company ;;
      x2 <- Company.x2 company ;;
      x3 <- Company.x3 company ;;
      x4 <- Company.x4 company ;;
      x5 <- Company.x5 company ;;
      let z_score :=
        (Fin 1.2 * x1 + Fin 1.4 * x2 + Fin 3.3 * x3 + Fin 0.6 * x4
         + Fin 1.0 * x5)%float in
      Ok (z_score, mk_ratios x1 x2 x3 x4 x5)
  | AltmanPrime =>
      x1 <- Company.x1 company ;;
      x2 <- Company.x2 company ;;
      x3 <- Company.x3 company ;;
      x4 <- Company.x4_mod company ;;
      x5 <- Company.x5 company ;;
      let z_score :=
        (Fin 0.717 * x1 + Fin 0.847 * x2 + Fin 3.107 * x3 + Fin 0.420 * x4
         + Fin 0.998 * x5)%float in
      Ok (z_score, mk_ratios x1 x2 x3 x4 x5)
  | AltmanEmergingMarkets =>
      x1 <- Company.x1 company ;;
      x2 <- Company.x2 company ;;
      x3 <- Company.x3 company ;;
      x4 <- Company.x4_mod company ;;
      x5 <- Company.x5 company ;;
      let z_score :=
        (Fin 6.56 * x1 + Fin 3.26 * x2 + Fin 6.72 * x3 + Fin 1.05 * x4)%float in
      Ok (z_score, mk_ratios x1 x2 x3 x4 x5)
  end.

Definition model_name (self : AltmanValuationModel) : string :=
  match self with
  | AltmanClassic => "AltmanClassic"
  | AltmanPrime => "AltmanPrime"
  | AltmanEmergingMarkets => "AltmanEmergingMarkets"
  end.

(** The dictionary [AltmanValuationModel.evaluate] returns. *)
Record AltmanEvaluation : Type := {
  a_z_score : float;
  a_classification : string;
  a_model_name : string;
  a_ratios : Ratios
}.

Definition evaluate (self : AltmanValuationModel) (company : Company)
    : result AltmanEvaluation :=
  zr <- compute self company ;;
  let z_score := fst zr in
  Ok {| a_z_score := round z_score 4;
        a_classification := classify self z_score;
        a_model_name := model_name self;
        a_ratios := snd zr |}.

(** [combined_decision] has no final [else]: outside the listed cases it
    returns [None]. *)
Definition combined_decision (altman_cls merton_cls : string) : option string :=
  if (altman_cls =? "Distress Zone")%string || (merton_cls =? "Distress Zone")%string
  then Some "Dismissed"
  else if (altman_cls =? "Safe Zone")%string && (merton_cls =? "Safe Zone")%string
  then Some "Approved"
  else if (altman_cls =? "Grey Zone")%string && (merton_cls =? "Safe Zone")%string
  then Some "Approved with Caution"
  else if (altman_cls =? "Safe Zone")%string && (merton_cls =? "Grey Zone")%string
  then Some "Approved with Caution"
  else if (altman_cls =? "Grey Zone")%string && (merton_cls =? "Grey Zone")%string
  then Some "Analysis Required"
  else None.

(** Values stored in the dictionary [MertonModel.evaluate] returns, whose
    set of keys depends on the branch taken. *)
Inductive pyval : Type :=
| VFloat (f : float)
| VStr (s : string).

Definition dict : Type := list (string * pyval).

Fixpoint get (d : dict) (key : string) : option pyval :=
  match d with
  | [] => None
  | (k, v) :: rest => if String.eqb k key then Some v else get rest key
  end.

Definition _classify_merton (prob : float) : string :=
  if (prob <? Fin 0.01)%float then "Safe Zone"
  else if (prob <? Fin 0.15)%float then "Grey Zone"
  else "Distress Zone".

(** [sigma**2] *)
Definition square (a : float) : float := (a * a)%float.

(** The body of [MertonModel.evaluate] once [sigma], [v] and [d] are read. *)
Definition merton_of (sigma v d : float) : dict :=
  let r := Fin 0.04 in
  if (sigma ==? Fin 0)%float || (v <=? Fin 0)%float || (d <=? Fin 0)%float then
    [("default_probability", VFloat NaN); ("classification", VStr "Grey Zone")]
  else
    let t := of_Z 2 in
    let dd :=
      (((Float.log (v / d) + (r - Fin 0.5 * square sigma)) * t)
       / (sigma * Float.sqrt t))%float in
    let prob := (of_Z 1 - norm_cdf dd)%float in
    [("distance_to_default", VFloat dd);
     ("default_probability", VFloat prob);
     ("classification", VStr (_classify_merton prob))].

Definition merton_evaluate (company : Company) : result dict :=
  assets <- loc (_bs company) "Total Assets" ;;
  let sigma := std (dropna (pct_change assets)) in
  v <- Company.total_assets company ;;
  d <- Company.current_liabilities company ;;
  Ok (merton_of sigma v d).

End Models.

Import Models.

(** ** schemas.py *)

Module Schemas.

(** ASCII view of [str.strip] and [str.upper]. *)
Definition is_space (c : Ascii.ascii) : bool :=
  let n := Ascii.nat_of_ascii c in
  ((9 <=? n) && (n <=? 13) || (28 <=? n) && (n <=? 32))%nat.

Definition upper_char (c : Ascii.ascii) : Ascii.ascii :=
  let n := Ascii.nat_of_ascii c in
  if ((97 <=? n) && (n <=? 122))%nat then Ascii.ascii_of_nat (n - 32) else c.

Fixpoint lstrip (s : string) : string :=
  match s with
  | String c rest => if is_space c then lstrip rest else s
  | EmptyString => EmptyString
  end.

Fixpoint rstrip (s : string) : string :=
  match s with
  | String c rest =>
      match rstrip rest with
      | EmptyString => if is_space c then EmptyString else String c EmptyString
      | rest' => String c rest'
      end
  | EmptyString => EmptyString
  end.

Definition strip (s : string) : string := rstrip (lstrip s).

Fixpoint upper (s : string) : string :=
  match s with
  | String c rest => String (upper_char c) (upper rest)
  | EmptyString => EmptyString
  end.

Record ZScoreRequest : Type := {
  req_ticker : string;
  req_industry_type : Z
}.

Definition validate_industry_type (industry_type : Z) : result Z :=
  if negb (valid_industry_type industry_type) then Raise ValueError
  else Ok industry_type.

Definition validate_ticker (ticker : string) : result string :=
  let ticker := upper (strip ticker) in
  if (ticker =? "")%string then Raise ValueError else Ok ticker.

(** Building a [ZScoreRequest] runs both field validators; pydantic reports
    any failure as a [ValidationError]. *)
Definition ZScoreRequest_new (ticker : string) (industry_type : Z)
    : result ZScoreRequest :=
  match validate_ticker ticker, validate_industry_type industry_type with
  | Ok t, Ok i => Ok {| req_ticker := t; req_industry_type := i |}
  | _, _ => Raise ValidationError
  end.

Record RatiosDetail : Type := {
  x1 : float;
  x2 : float;
  x3 : float;
  x4 : float;
  x5 : float
}.

Definition RatiosDetail_new (ratios : Ratios) : RatiosDetail :=
  {| x1 := r_x1 ratios; x2 := r_x2 ratios; x3 := r_x3 ratios;
     x4 := r_x4 ratios; x5 := r_x5 ratios |}.

(** All three fields of [MertonDetail] are required. *)
Record MertonDetail : Type := {
  distance_to_default : float;
  default_probability : float;
  classification : string
}.

(** [MertonDetail] built from keyword arguments: a missing field, or a value of the wrong
    kind, is a [ValidationError]; NaN and the infinities are accepted. *)
Definition MertonDetail_new (kwargs : dict) : result MertonDetail :=
  match get kwargs "distance_to_default",
        get kwargs "default_probability",
        get kwargs "classification" with
  | Some (VFloat dd), Some (VFloat p), Some (VStr c) =>
      Ok {| distance_to_default := dd;
            default_probability := p;
            classification := c |}
  | _, _, _ => Raise ValidationError
  end.

Record ZScoreResponse : Type := {
  resp_ticker : string;
  resp_model_name : string;
  resp_z_score : float;
  resp_classification : string;
  resp_ratios : RatiosDetail;
  resp_merton : MertonDetail;
  resp_combined_decision : string
}.

(** [combined_decision: str] rejects [None]. *)
Definition ZScoreResponse_new (ticker model_name : string) (z_score : float)
    (classification : string) (ratios : RatiosDetail) (merton : MertonDetail)
    (combined_decision : option string) : result ZScoreResponse :=
  match combined_decision with
  | Some decision =>
      Ok {| resp_ticker := ticker;
            resp_model_name := model_name;
            resp_z_score := z_score;
            resp_classification := classification;
            resp_ratios := ratios;
            resp_merton := merton;
            resp_combined_decision := decision |}
  | None => Raise ValidationError
  end.

End Schemas.

Import Schemas.

(** ** evaluation.py and main.py *)

Module Evaluation.

(** The value of a dictionary entry that is known to be a string. *)
Definition get_str (d : dict) (key : string) : result string :=
  match get d key with
  | Some (VStr s) => Ok s
  | _ => Raise KeyError
  end.

(** The pipeline after the company has been built. *)
Definition evaluate_fetched (request : ZScoreRequest) (company : Company)
    : result ZScoreResponse :=
  altman_model <- for_industry_type (req_industry_type request) ;;
  altman <- Models.evaluate altman_model company ;;
  merton <- merton_evaluate company ;;
  merton_cls <- get_str merton "classification" ;;
  let decision := combined_decision (a_classification altman) merton_cls in
  let ratios := RatiosDetail_new (a_ratios altman) in
  merton_detail <- MertonDetail_new merton ;;
  ZScoreResponse_new (req_ticker request) (a_model_name altman)
    (a_z_score altman) (a_classification altman) ratios merton_detail decision.

Definition evaluate_company (yf : Provider) (request : ZScoreRequest)
    (log : CallLog) : result ZScoreResponse * CallLog :=
  match Company.__init__ yf (req_ticker request) (req_industry_type request) log with
  | (Ok company, log') => (evaluate_fetched request company, log')
  | (Raise e, log') => (Raise e, log')
  end.

(** The [/evaluate] endpoint: a response, or the HTTP status it fails with. *)
Definition http_status (e : exn) : Z :=
  match e with
  | RuntimeError => 422
  | ValueError | ValidationError => 400
  | KeyError | IndexError => 500
  end.

Definition endpoint_evaluate (yf : Provider) (request : ZScoreRequest)
    (log : CallLog) : (ZScoreResponse + Z) * CallLog :=
  match evaluate_company yf request log with
  | (Ok response, log') => (inl response, log')
  | (Raise e, log') => (inr (http_status e), log')
  end.

End Evaluation.

Import Evaluation.

(** ** Vocabulary of the specification and sample data *)

(** The three zone labels and the four decisions. *)
Definition zones : list string := ["Safe Zone"; "Grey Zone"; "Distress Zone"].

Definition decisions : list string :=
  ["Approved"; "Approved with Caution"; "Analysis Required"; "Dismissed"].

(** The three Z-score formulas, as functions of the ratios. *)
Definition z_classic (x1 x2 x3 x4 x5 : float) : float :=
  (Fin 1.2 * x1 + Fin 1.4 * x2 + Fin 3.3 * x3 + Fin 0.6 * x4 + Fin 1.0 * x5)%float.

Definition z_prime (x1 x2 x3 x4_mod x5 : float) : float :=
  (Fin 0.717 * x1 + Fin 0.847 * x2 + Fin 3.107 * x3 + Fin 0.420 * x4_mod
   + Fin 0.998 * x5)%float.

Definition z_emerging (x1 x2 x3 x4_mod : float) : float :=
  (Fin 6.56 * x1 + Fin 3.26 * x2 + Fin 6.72 * x3 + Fin 1.05 * x4_mod)%float.

(** The distance to default the code computes, and the one the
    specification states, at finite inputs (r = 0.04, t = 2). *)
Definition dd_computed (sigma v d : R) : R :=
  ((ln (v / d) + (0.04 - 0.5 * (sigma * sigma))) * 2) / (sigma * R_sqrt.sqrt 2).

Definition dd_specified (sigma v d : R) : R :=
  (ln (v / d) + (0.04 - 0.5 * (sigma * sigma)) * 2) / (sigma * R_sqrt.sqrt 2).

(** The dictionary returned in the degenerate case. *)
Definition merton_fallback : dict :=
  [("default_probability", VFloat NaN); ("classification", VStr "Grey Zone")].

(** Reading a line item fails with a lookup error only. *)
Definition lookup_error (e : exn) : Prop := e = KeyError \/ e = IndexError.

Module Scenarios.

(** A balance sheet with the given total-asset history (most recent first)
    and single-period values for the other line items. *)
Definition sheet (assets : Series) (wc re tl cl se : R) : DataFrame :=
  [("Total Assets", assets);
   ("Working Capital", [Fin wc]);
   ("Retained Earnings", [Fin re]);
   ("Total Liabilities Net Minority Interest", [Fin tl]);
   ("Current Liabilities", [Fin cl]);
   ("Stockholders Equity", [Fin se])].

Definition income (ebit revenue : R) : DataFrame :=
  [("EBIT", [Fin ebit]); ("Total Revenue", [Fin revenue])].

Definition company_of (name : string) (industry : Z) (bs ist : DataFrame) : Company :=
  {| ticker := name; industry_type := industry; _bs := bs; _ist := ist;
     _current_price := Fin 10; _shares_outstanding := 50 |}.

(** The end-to-end scenario of the specification. *)
Definition aaa : Company :=
  company_of "AAA" 1 (sheet [Fin 1000] 300 200 400 100 500) (income 150 800).

(** The same statement with another revenue figure, as an emerging-market
    firm. *)
Definition aaa_em (revenue : R) : Company :=
  company_of "AAA" 3 (sheet [Fin 1000] 300 200 400 100 500) (income 150 revenue).

(** Four asset observations whose changes are 0.2, 0 and -0.2: the sample
    standard deviation is 0.2; V = 1000 and D = 500. *)
Definition swing : Company :=
  company_of "SWG" 1
    (sheet [Fin 1000; Fin 1200; Fin 1200; Fin 960] 300 200 400 500 500)
    (income 150 800).

(** Constant total assets: sigma = 0. *)
Definition flat : Company :=
  company_of "FLT" 1
    (sheet [Fin 1000; Fin 1000; Fin 1000; Fin 1000] 300 200 400 500 500)
    (income 150 800).

(** Only two asset observations. *)
Definition young : Company :=
  company_of "YNG" 1 (sheet [Fin 1000; Fin 900] 300 200 400 500 500)
    (income 150 800).

(** A statement reporting zero total assets and zero total liabilities. *)
Definition hollow : Company :=
  company_of "HLW" 1 (sheet [Fin 0] 300 200 0 100 500) (income 150 800).

(** A provider that knows the tickers FLT and SWG only. *)
Definition yf_demo : Provider := fun t =>
  if (t =? "FLT")%string then
    Some {| balance_sheet := _bs flat; income_stmt := _ist flat;
            history_close := [Fin 10]; sharesOutstanding := Some 50%Z |}
  else if (t =? "SWG")%string then
    Some {| balance_sheet := _bs swing; income_stmt := _ist swing;
            history_close := [Fin 10]; sharesOutstanding := Some 50%Z |}
  else None.

End Scenarios.

Import Scenarios.

(** ** frontend/dashboard.py: input handling and lookup tables *)

Module Dashboard.

(** A Python dictionary with string keys, read with [d[key]]. *)
Fixpoint getitem {A : Type} (d : list (string * A)) (key : string) : option A :=
  match d with
  | [] => None
  | (k, v) :: rest => if String.eqb k key then Some v else getitem rest key
  end.

Definition CLASSIFICATION_COLORS : list (string * string) :=
  [("Distress Zone", "#E84545");
   ("Safe Zone", "#00C896");
   ("Grey Zone", "#F5A623")].

Definition CLASSIFICATION_BG : list (string * string) :=
  [("Distress Zone", "rgba(232,69,69,0.12)");
   ("Safe Zone", "rgba(0,200,150,0.12)");
   ("Grey Zone", "rgba(245,166,35,0.12)")].

Definition DECISION_COLORS : list (string * string) :=
  [("Approved", "#00C896");
   ("Approved with Caution", "#6494ED");
   ("Analysis Required", "#F5A623");
   ("Dismissed", "#E84545")].

Definition DECISION_BG : list (string * string) :=
  [("Approved", "rgba(0,200,150,0.12)");
   ("Approved with Caution", "rgba(100,148,237,0.12)");
   ("Analysis Required", "rgba(245,166,35,0.12)");
   ("Dismissed", "rgba(232,69,69,0.12)")].

(** The character [,]. *)
Definition comma : Ascii.ascii := Ascii.ascii_of_nat 44.

(** [s.split(sep)] for a one-character separator: the pieces between the
    separators, empty pieces included. *)
Fixpoint split (sep : Ascii.ascii) (s : string) : list string :=
  match s with
  | EmptyString => [EmptyString]
  | String c rest =>
      if Ascii.eqb c sep then EmptyString :: split sep rest
      else
        match split sep rest with
        | [] => [String c EmptyString]
        | piece :: pieces => String c piece :: pieces
        end
  end.

(** Truth value of a string: non-empty. *)
Definition truthy (s : string) : bool := negb (s =? "")%string.

(** Why the page stops before calling the API. *)
Inductive stop : Type :=
| NoTickers
| NoIndustryTypes
| Mismatch (n_tickers n_industry_types : nat)
| NotIntegers
| InvalidIndustryTypes (invalid : list Z).

Section Inputs.

(** Python's [int] on a string: [None] stands for [ValueError]. *)
Variable int : string -> option Z.

(** [[int(v) for v in values]], abandoned at the first [ValueError]. *)
Fixpoint ints (values : list string) : option (list Z) :=
  match values with
  | [] => Some []
  | v :: rest =>
      match int v with
      | None => None
      | Some n =>
          match ints rest with
          | None => None
          | Some ns => Some (n :: ns)
          end
      end
  end.

(** The main area from "Parse tickers" to the loop over the API calls:
    the reason to stop, or the (ticker, industry type) pairs sent to the
    backend, in order. *)
Definition parse_inputs (tickers_raw industry_raw : string)
    : stop + list (string * Z) :=
  let tickers :=
    map (fun t => upper (strip t))
      (filter (fun t => truthy (strip t)) (split comma tickers_raw)) in
  let industry_types_raw :=
    map strip (filter (fun i => truthy (strip i)) (split comma industry_raw)) in
  match tickers with
  | [] => inl NoTickers
  | _ =>
  match industry_types_raw with
  | [] => inl NoIndustryTypes
  | _ =>
  if negb (List.length industry_types_raw =? List.length tickers)%nat then
    inl (Mismatch (List.length tickers) (List.length industry_types_raw))
  else
    match ints industry_types_raw with
    | None => inl NotIntegers
    | Some industry_types =>
        let invalid :=
          filter (fun v => negb (valid_industry_type v)) industry_types in
        match invalid with
        | [] => inr (combine tickers industry_types)
        | _ => inl (InvalidIndustryTypes invalid)
        end
    end
  end
  end.

End Inputs.

End Dashboard.

Import Dashboard.

(** ** Further vocabulary *)

(** Strings made of ASCII characters, on which [strip] and [upper] are
    Python's. *)
Fixpoint is_ascii (s : string) : bool :=
  match s with
  | EmptyString => true
  | String c rest => (Ascii.nat_of_ascii c <? 128)%nat && is_ascii rest
  end.

Fixpoint all_space (s : string) : bool :=
  match s with
  | EmptyString => true
  | String c rest => is_space c && all_space rest
  end.

Definition is_lower (c : Ascii.ascii) : bool :=
  let n := Ascii.nat_of_ascii c in ((97 <=? n) && (n <=? 122))%nat.

Fixpoint no_lower (s : string) : bool :=
  match s with
  | EmptyString => true
  | String c rest => negb (is_lower c) && no_lower rest
  end.

(** A string that is empty or starts with a character that is not white
    space. *)
Definition clean_head (s : string) : Prop :=
  match s with
  | EmptyString => True
  | String c _ => is_space c = false
  end.

(** How safe a zone is, and how favourable a decision. *)
Definition zone_rank (zone : string) : nat :=
  if (zone =? "Safe Zone")%string then 2
  else if (zone =? "Grey Zone")%string then 1
  else 0.

Definition decision_rank (decision : option string) : nat :=
  match decision with
  | Some d =>
      if (d =? "Approved")%string then 3
      else if (d =? "Approved with Caution")%string then 2
      else if (d =? "Analysis Required")%string then 1
      else 0
  | None => 0
  end.

(** A digit reader used to run the dashboard on sample input. *)
Definition int_digit (s : string) : option Z :=
  if (s =? "1")%string then Some 1%Z
  else if (s =? "2")%string then Some 2%Z
  else if (s =? "3")%string then Some 3%Z
  else None.

(** * Properties *)

(** ** Comparisons on reals and floats *)

Lemma Rltb_lt (x y : R) : Rltb x y = true <-> x < y.
Proof. unfold Rltb. destruct (Rlt_dec x y); split; intros; lra || easy. Qed.

Lemma Rltb_ge (x y : R) : Rltb x y = false <-> y <= x.
Proof. unfold Rltb. destruct (Rlt_dec x y); split; intros; lra || easy. Qed.

Lemma Rleb_le (x y : R) : Rleb x y = true <-> x <= y.
Proof. unfold Rleb. destruct (Rle_dec x y); split; intros; lra || easy. Qed.

Lemma Rleb_gt (x y : R) : Rleb x y = false <-> y < x.
Proof. unfold Rleb. destruct (Rle_dec x y); split; intros; lra || easy. Qed.

Lemma Reqb_eq (x y : R) : Reqb x y = true <-> x = y.
Proof. unfold Reqb. destruct (Req_EM_T x y); split; intros; lra || easy. Qed.

Lemma Reqb_neq (x y : R) : Reqb x y = false <-> x <> y.
Proof. unfold Reqb. destruct (Req_EM_T x y); split; intros; lra || easy. Qed.

(** Decide a comparison between two real expressions once [lra] can. *)
Ltac real_cmp :=
  repeat match goal with
  | |- context [Rltb ?x ?y] =>
      first [ replace (Rltb x y) with true by (symmetry; apply Rltb_lt; lra)
            | replace (Rltb x y) with false by (symmetry; apply Rltb_ge; lra) ]
  | |- context [Rleb ?x ?y] =>
      first [ replace (Rleb x y) with true by (symmetry; apply Rleb_le; lra)
            | replace (Rleb x y) with false by (symmetry; apply Rleb_gt; lra) ]
  | |- context [Reqb ?x ?y] =>
      first [ replace (Reqb x y) with true by (symmetry; apply Reqb_eq; lra)
            | replace (Reqb x y) with false by (symmetry; apply Reqb_neq; lra) ]
  end.

(** ** Zone classification *)

Lemma thresholds_ordered (self : AltmanValuationModel) :
  DISTRESS_THRESHOLD self < SAFE_THRESHOLD self.
Proof. destruct self; simpl; lra. Qed.

Lemma classify_cases (self : AltmanValuationModel) (z : R) :
  (SAFE_THRESHOLD self < z /\ classify self (Fin z) = "Safe Zone")
  \/ (DISTRESS_THRESHOLD self <= z <= SAFE_THRESHOLD self
      /\ classify self (Fin z) = "Grey Zone")
  \/ (z < DISTRESS_THRESHOLD self /\ classify self (Fin z) = "Distress Zone").
Proof.
  unfold classify, gtb, geb; simpl.
  destruct (Rlt_dec (SAFE_THRESHOLD self) z) as [Hs | Hs].
  - left. split; [assumption |]. now rewrite (proj2 (Rltb_lt _ _) Hs).
  - rewrite (proj2 (Rltb_ge _ _)) by lra.
    destruct (Rle_dec (DISTRESS_THRESHOLD self) z) as [Hd | Hd].
    + right; left. rewrite (proj2 (Rleb_le _ _) Hd). split; [lra | reflexivity].
    + right; right. rewrite (proj2 (Rleb_gt _ _)) by lra.
      split; [lra | reflexivity].
Qed.

Lemma classify_merton_cases (p : R) :
  (p < 0.01 /\ _classify_merton (Fin p) = "Safe Zone")
  \/ (0.01 <= p < 0.15 /\ _classify_merton (Fin p) = "Grey Zone")
  \/ (0.15 <= p /\ _classify_merton (Fin p) = "Distress Zone").
Proof.
  unfold _classify_merton; simpl.
  destruct (Rlt_dec p 0.01) as [H1 | H1].
  - left. split; [assumption |]. now rewrite (proj2 (Rltb_lt _ _) H1).
  - rewrite (proj2 (Rltb_ge _ _)) by lra.
    destruct (Rlt_dec p 0.15) as [H2 | H2].
    + right; left. rewrite (proj2 (Rltb_lt _ _) H2). split; [lra | reflexivity].
    + right; right. rewrite (proj2 (Rltb_ge _ _)) by lra.
      split; [lra | reflexivity].
Qed.

(** The classifiers return one of the three labels on every float, NaN and
    the infinities included. *)
Lemma classify_in_zones (self : AltmanValuationModel) (z : float) :
  In (classify self z) zones.
Proof.
  unfold classify, zones.
  destruct (z >? _)%float; [simpl; auto |].
  destruct (z >=? _)%float; simpl; auto.
Qed.

Lemma classify_merton_in_zones (p : float) :
  In (_classify_merton p) zones.
Proof.
  unfold _classify_merton, zones.
  destruct (p <? _)%float; [simpl; auto |].
  destruct (p <? _)%float; simpl; auto.
Qed.

(** C6: in every Altman variant a score equal to [SAFE_THRESHOLD] is in the
    Grey Zone and so is a score equal to [DISTRESS_THRESHOLD]; a real score
    is Safe exactly when it is strictly above [SAFE_THRESHOLD], Distress
    exactly when it is strictly below [DISTRESS_THRESHOLD], and Grey exactly
    on the closed interval between the two. *)
Theorem classify_boundaries (self : AltmanValuationModel) :
  classify self (Fin (SAFE_THRESHOLD self)) = "Grey Zone"
  /\ classify self (Fin (DISTRESS_THRESHOLD self)) = "Grey Zone"
  /\ forall z : R,
       (classify self (Fin z) = "Safe Zone" <-> SAFE_THRESHOLD self < z)
       /\ (classify self (Fin z) = "Distress Zone" <-> z < DISTRESS_THRESHOLD self)
       /\ (classify self (Fin z) = "Grey Zone"
           <-> DISTRESS_THRESHOLD self <= z <= SAFE_THRESHOLD self).
Proof.
  pose proof (thresholds_ordered self) as Hord.
  assert (Hz : forall z : R,
       (classify self (Fin z) = "Safe Zone" <-> SAFE_THRESHOLD self < z)
       /\ (classify self (Fin z) = "Distress Zone" <-> z < DISTRESS_THRESHOLD self)
       /\ (classify self (Fin z) = "Grey Zone"
           <-> DISTRESS_THRESHOLD self <= z <= SAFE_THRESHOLD self)).
  { intros z.
    destruct (classify_cases self z) as [[H E] | [[H E] | [H E]]];
      rewrite E; repeat split; intros; try discriminate; try lra. }
  split; [| split]; [apply Hz; lra | apply Hz; lra | exact Hz].
Qed.

(** C7: the decision combiner follows the table on the nine pairs of zone
    labels; a Distress Zone on either side gives Dismissed whatever the other
    argument is, and the two mixed Safe/Grey pairs give the same decision. *)
Theorem combined_decision_table :
  (forall merton_cls, combined_decision "Distress Zone" merton_cls = Some "Dismissed")
  /\ (forall altman_cls, combined_decision altman_cls "Distress Zone" = Some "Dismissed")
  /\ combined_decision "Safe Zone" "Safe Zone" = Some "Approved"
  /\ combined_decision "Safe Zone" "Grey Zone" = Some "Approved with Caution"
  /\ combined_decision "Grey Zone" "Safe Zone" = Some "Approved with Caution"
  /\ combined_decision "Grey Zone" "Grey Zone" = Some "Analysis Required"
  /\ combined_decision "Safe Zone" "Grey Zone" = combined_decision "Grey Zone" "Safe Zone"
  /\ Forall (fun a => Forall (fun m => combined_decision a m <> None) zones) zones.
Proof.
  repeat split; try reflexivity.
  - intros altman_cls. unfold combined_decision.
    rewrite (String.eqb_refl "Distress Zone"), orb_true_r. reflexivity.
  - unfold zones. repeat constructor; discriminate.
Qed.

(** C9: classification is total with no gaps and no overlaps.  Every real
    Z-score falls in exactly one of the three cases of the Altman
    classifier, every real probability in exactly one of the three cases of
    the Merton classifier (below 0.01 Safe, from 0.01 and below 0.15 Grey,
    0.15 and above Distress), and the three labels are pairwise distinct. *)
Theorem classification_total :
  (forall (self : AltmanValuationModel) (z : R),
      In (classify self (Fin z)) zones
      /\ (classify self (Fin z) = "Safe Zone" <-> SAFE_THRESHOLD self < z)
      /\ (classify self (Fin z) = "Grey Zone"
          <-> DISTRESS_THRESHOLD self <= z <= SAFE_THRESHOLD self)
      /\ (classify self (Fin z) = "Distress Zone" <-> z < DISTRESS_THRESHOLD self))
  /\ (forall p : R,
      In (_classify_merton (Fin p)) zones
      /\ (_classify_merton (Fin p) = "Safe Zone" <-> p < 0.01)
      /\ (_classify_merton (Fin p) = "Grey Zone" <-> 0.01 <= p < 0.15)
      /\ (_classify_merton (Fin p) = "Distress Zone" <-> 0.15 <= p))
  /\ NoDup zones.
Proof.
  split; [| split].
  - intros self z. pose proof (thresholds_ordered self) as Hord.
    split; [apply classify_in_zones |].
    destruct (classify_cases self z) as [[H E] | [[H E] | [H E]]];
      rewrite E; repeat split; intros; try discriminate; try lra.
  - intros p. split; [apply classify_merton_in_zones |].
    destruct (classify_merton_cases p) as [[H E] | [[H E] | [H E]]];
      rewrite E; repeat split; intros; try discriminate; try lra.
  - unfold zones. repeat constructor; simpl; intuition discriminate.
Qed.

(** ** Ratios and Z-scores *)

Lemma bind_ok {A B : Type} (m : result A) (k : A -> result B) (b : B) :
  bind m k = Ok b -> exists a, m = Ok a /\ k a = Ok b.
Proof. destruct m as [a | e]; simpl; [eauto | discriminate]. Qed.

Lemma ratio_ok (num den : result float) (q : float) :
  ratio num den = Ok q -> exists n d, num = Ok n /\ den = Ok d /\ q = (n / d)%float.
Proof.
  unfold ratio. intros H.
  apply bind_ok in H as (n & Hn & H). apply bind_ok in H as (d & Hd & H).
  injection H as <-. eauto.
Qed.

(** Evaluate the float operations of a goal whose operands are finite
    literals. *)
Ltac float_eval :=
  repeat (simpl; unfold Float.div, Float.log, Float.sqrt, Float.eqb, Float.leb,
            Float.ltb, Float.gtb, Float.geb, inf_times; real_cmp; simpl).

Ltac ratio_eval :=
  unfold Company.x1, Company.x2, Company.x3, Company.x4, Company.x4_mod,
    Company.x5, ratio, working_capital, total_assets, retained_earnings,
    total_liabilities, current_liabilities, book_equity, market_equity, ebit,
    total_revenue, bs_item, ist_item;
  float_eval.

Lemma z_classic_finite (a1 a2 a3 a4 a5 : R) :
  z_classic (Fin a1) (Fin a2) (Fin a3) (Fin a4) (Fin a5)
  = Fin (1.2 * a1 + 1.4 * a2 + 3.3 * a3 + 0.6 * a4 + 1.0 * a5).
Proof. reflexivity. Qed.

Lemma z_emerging_finite (a1 a2 a3 a4 : R) :
  z_emerging (Fin a1) (Fin a2) (Fin a3) (Fin a4)
  = Fin (6.56 * a1 + 3.26 * a2 + 6.72 * a3 + 1.05 * a4).
Proof. reflexivity. Qed.

(** C8: whenever the six ratios of a company can be read, industry code 1
    selects the classic model, whose score is
    1.2 x1 + 1.4 x2 + 3.3 x3 + 0.6 x4 + 1.0 x5 with x4 the market equity
    (price times shares) over total liabilities; codes 2 and 3 select models
    that use x4_mod, the book equity over total liabilities; the score of
    code 3 is 6.56 x1 + 3.26 x2 + 6.72 x3 + 1.05 x4_mod with no x5 term, so
    any company with the same x1, x2, x3 and x4_mod gets the same score
    whatever its total revenue. *)
Theorem altman_formulas (company : Company) (a1 a2 a3 a4 a4m a5 : float) :
  Company.x1 company = Ok a1 ->
  Company.x2 company = Ok a2 ->
  Company.x3 company = Ok a3 ->
  Company.x4 company = Ok a4 ->
  Company.x4_mod company = Ok a4m ->
  Company.x5 company = Ok a5 ->
  for_industry_type 1 = Ok AltmanClassic
  /\ for_industry_type 2 = Ok AltmanPrime
  /\ for_industry_type 3 = Ok AltmanEmergingMarkets
  /\ (exists tl be,
        total_liabilities company = Ok tl
        /\ book_equity company = Ok be
        /\ a4 = (_current_price company * of_Z (_shares_outstanding company) / tl)%float
        /\ a4m = (be / tl)%float)
  /\ compute AltmanClassic company
     = Ok (z_classic a1 a2 a3 a4 a5, mk_ratios a1 a2 a3 a4 a5)
  /\ compute AltmanPrime company
     = Ok (z_prime a1 a2 a3 a4m a5, mk_ratios a1 a2 a3 a4m a5)
  /\ compute AltmanEmergingMarkets company
     = Ok (z_emerging a1 a2 a3 a4m, mk_ratios a1 a2 a3 a4m a5)
  /\ (forall (other : Company) (b5 : float),
        Company.x1 other = Ok a1 ->
        Company.x2 other = Ok a2 ->
        Company.x3 other = Ok a3 ->
        Company.x4_mod other = Ok a4m ->
        Company.x5 other = Ok b5 ->
        compute AltmanEmergingMarkets other
        = Ok (z_emerging a1 a2 a3 a4m, mk_ratios a1 a2 a3 a4m b5)).
Proof.
  intros H1 H2 H3 H4 H4m H5.
  repeat split; try reflexivity.
  - apply ratio_ok in H4 as (n & tl & Hn & Htl & ->).
    apply ratio_ok in H4m as (be & tl' & Hbe & Htl' & ->).
    rewrite Htl in Htl'. injection Htl' as <-.
    unfold market_equity in Hn. injection Hn as <-.
    exists tl, be. repeat split; assumption.
  - unfold compute. rewrite H1, H2, H3, H4, H5. reflexivity.
  - unfold compute. rewrite H1, H2, H3, H4m, H5. reflexivity.
  - unfold compute. rewrite H1, H2, H3, H4m, H5. reflexivity.
  - intros other b5 G1 G2 G3 G4 G5.
    unfold compute. rewrite G1, G2, G3, G4, G5. reflexivity.
Qed.

Lemma aaa_ratios :
  Company.x1 aaa = Ok (Fin (300 / 1000))
  /\ Company.x2 aaa = Ok (Fin (200 / 1000))
  /\ Company.x3 aaa = Ok (Fin (150 / 1000))
  /\ Company.x4 aaa = Ok (Fin (10 * 50 / 400))
  /\ Company.x4_mod aaa = Ok (Fin (500 / 400))
  /\ Company.x5 aaa = Ok (Fin (800 / 1000)).
Proof. repeat split; ratio_eval; reflexivity. Qed.

Lemma aaa_em_ratios (revenue : R) :
  Company.x1 (aaa_em revenue) = Ok (Fin (300 / 1000))
  /\ Company.x2 (aaa_em revenue) = Ok (Fin (200 / 1000))
  /\ Company.x3 (aaa_em revenue) = Ok (Fin (150 / 1000))
  /\ Company.x4_mod (aaa_em revenue) = Ok (Fin (500 / 400))
  /\ Company.x5 (aaa_em revenue) = Ok (Fin (revenue / 1000)).
Proof. repeat split; ratio_eval; reflexivity. Qed.

(** The formulas at the scenario of the specification, and the score of the
    emerging-market variant at two different revenues. *)
Lemma altman_formulas_witness :
  compute AltmanClassic aaa
  = Ok (z_classic (Fin (300 / 1000)) (Fin (200 / 1000)) (Fin (150 / 1000))
          (Fin (10 * 50 / 400)) (Fin (800 / 1000)),
        mk_ratios (Fin (300 / 1000)) (Fin (200 / 1000)) (Fin (150 / 1000))
          (Fin (10 * 50 / 400)) (Fin (800 / 1000)))
  /\ compute AltmanEmergingMarkets (aaa_em 5)
     = Ok (z_emerging (Fin (300 / 1000)) (Fin (200 / 1000)) (Fin (150 / 1000))
             (Fin (500 / 400)),
           mk_ratios (Fin (300 / 1000)) (Fin (200 / 1000)) (Fin (150 / 1000))
             (Fin (500 / 400)) (Fin (5 / 1000))).
Proof.
  destruct aaa_ratios as (H1 & H2 & H3 & H4 & H4m & H5).
  destruct (aaa_em_ratios 5) as (G1 & G2 & G3 & G4 & G5).
  destruct (altman_formulas aaa _ _ _ _ _ _ H1 H2 H3 H4 H4m H5)
    as (_ & _ & _ & _ & Hc & _ & _ & Hind).
  split; [exact Hc | exact (Hind (aaa_em 5) _ G1 G2 G3 G4 G5)].
Defined.

(** The end-to-end scenario: the score is 2.685, in the Grey Zone. *)
Example aaa_end_to_end :
  exists ratios,
    compute AltmanClassic aaa = Ok (Fin 2.685, ratios)
    /\ classify AltmanClassic (Fin 2.685) = "Grey Zone".
Proof.
  destruct aaa_ratios as (H1 & H2 & H3 & H4 & _ & H5).
  eexists. split.
  - unfold compute. rewrite H1, H2, H3, H4, H5. simpl. do 3 f_equal. lra.
  - unfold classify. float_eval. reflexivity.
Qed.

(** ** Validation precedes the data fetch *)

(** C5: with an industry code other than 1, 2 and 3 building the company
    raises [ValueError] and leaves the log of provider calls as it was; the
    request schema and the model factory reject the code too, and the
    evaluation of a request carrying it fails with that error (HTTP 400)
    without calling the provider. *)
Theorem invalid_industry_no_fetch (yf : Provider) (ticker : string)
    (industry_type : Z) (log : CallLog) :
  industry_type <> 1%Z -> industry_type <> 2%Z -> industry_type <> 3%Z ->
  Company.__init__ yf ticker industry_type log = (Raise ValueError, log)
  /\ validate_industry_type industry_type = Raise ValueError
  /\ ZScoreRequest_new ticker industry_type = Raise ValidationError
  /\ for_industry_type industry_type = Raise ValueError
  /\ evaluate_company yf
       {| req_ticker := ticker; req_industry_type := industry_type |} log
     = (Raise ValueError, log)
  /\ endpoint_evaluate yf
       {| req_ticker := ticker; req_industry_type := industry_type |} log
     = (inr 400%Z, log).
Proof.
  intros N1 N2 N3.
  assert (Hv : valid_industry_type industry_type = false).
  { unfold valid_industry_type.
    apply Z.eqb_neq in N1, N2, N3. now rewrite N1, N2, N3. }
  assert (Hi : Company.__init__ yf ticker industry_type log = (Raise ValueError, log)).
  { unfold Company.__init__. now rewrite Hv. }
  assert (He : evaluate_company yf
       {| req_ticker := ticker; req_industry_type := industry_type |} log
     = (Raise ValueError, log)).
  { unfold evaluate_company. simpl. now rewrite Hi. }
  repeat split.
  - exact Hi.
  - unfold validate_industry_type. now rewrite Hv.
  - unfold ZScoreRequest_new, validate_industry_type. rewrite Hv. simpl.
    now destruct (validate_ticker ticker).
  - unfold for_industry_type.
    apply Z.eqb_neq in N1, N2, N3. now rewrite N1, N2, N3.
  - exact He.
  - unfold endpoint_evaluate. now rewrite He.
Qed.

Lemma invalid_industry_no_fetch_witness :
  Company.__init__ yf_demo "FLT" 7 [] = (Raise ValueError, [])
  /\ evaluate_company yf_demo {| req_ticker := "FLT"; req_industry_type := 7 |} []
     = (Raise ValueError, []).
Proof.
  destruct (invalid_industry_no_fetch yf_demo "FLT" 7 [])
    as (Hi & _ & _ & _ & He & _); try discriminate.
  split; assumption.
Defined.

(** With a valid code the provider is called exactly once. *)
Lemma valid_industry_fetches (yf : Provider) (ticker : string)
    (industry_type : Z) (log : CallLog) :
  valid_industry_type industry_type = true ->
  snd (Company.__init__ yf ticker industry_type log) = (log ++ [ticker])%list.
Proof.
  intros Hv. unfold Company.__init__. rewrite Hv. simpl.
  destruct (yf ticker) as [obj |]; [| reflexivity].
  destruct (iloc0 (history_close obj)), (sharesOutstanding obj); reflexivity.
Qed.

(** ** The Merton model *)

Lemma sqrt2_pos : 0 < R_sqrt.sqrt 2.
Proof. apply sqrt_lt_R0. lra. Qed.

Lemma merton_of_regular (sigma v d : R) :
  0 < sigma -> 0 < v -> 0 < d ->
  merton_of (Fin sigma) (Fin v) (Fin d)
  = [("distance_to_default", VFloat (Fin (dd_computed sigma v d)));
     ("default_probability", VFloat (Fin (1 - Phi (dd_computed sigma v d))));
     ("classification",
      VStr (_classify_merton (Fin (1 - Phi (dd_computed sigma v d)))))].
Proof.
  intros Hs Hv Hd.
  pose proof sqrt2_pos as H2.
  assert (Hq : 0 < v / d) by (apply Rdiv_lt_0_compat; assumption).
  assert (Hp : 0 < sigma * R_sqrt.sqrt 2) by (apply Rmult_lt_0_compat; assumption).
  unfold merton_of, square, of_Z. simpl.
  rewrite (proj2 (Reqb_neq sigma 0)) by lra.
  rewrite (proj2 (Rleb_gt v 0)) by lra.
  rewrite (proj2 (Rleb_gt d 0)) by lra.
  simpl. unfold Float.div at 2. rewrite (proj2 (Reqb_neq d 0)) by lra.
  unfold Float.log. rewrite (proj2 (Rltb_lt 0 (v / d))) by assumption.
  unfold Float.sqrt. rewrite (proj2 (Rleb_le 0 2)) by lra.
  simpl. rewrite (proj2 (Reqb_neq (sigma * R_sqrt.sqrt 2) 0)) by lra.
  assert (E : (ln (v / d) + (0.04 + - (0.5 * (sigma * sigma)))) * 2
              / (sigma * R_sqrt.sqrt 2) = dd_computed sigma v d).
  { unfold dd_computed. f_equal. }
  rewrite E.
  replace (1 + - Phi (dd_computed sigma v d)) with (1 - Phi (dd_computed sigma v d))
    by lra.
  reflexivity.
Qed.

Lemma dd_gap (sigma v d : R) :
  0 < sigma ->
  dd_computed sigma v d
  = dd_specified sigma v d
    + ln (v / d) / (sigma * R_sqrt.sqrt 2).
Proof.
  intros Hs. pose proof sqrt2_pos as H2.
  unfold dd_computed, dd_specified. field. split; lra.
Qed.

(** C1, as the code computes it: at every finite input with sigma, V and D
    positive the result carries [dd_computed], in which the horizon t = 2
    multiplies the whole sum ln(V/D) + (r - sigma^2 / 2), and the default
    probability is 1 - Phi of that value.  It exceeds the specified
    distance, where t multiplies the drift only, by ln(V/D) / (sigma sqrt t),
    so the two differ whenever V is not equal to D. *)
Theorem merton_distance_computed (sigma v d : R) :
  0 < sigma -> 0 < v -> 0 < d ->
  get (merton_of (Fin sigma) (Fin v) (Fin d)) "distance_to_default"
  = Some (VFloat (Fin (dd_computed sigma v d)))
  /\ get (merton_of (Fin sigma) (Fin v) (Fin d)) "default_probability"
     = Some (VFloat (Fin (1 - Phi (dd_computed sigma v d))))
  /\ dd_computed sigma v d
     = dd_specified sigma v d + ln (v / d) / (sigma * R_sqrt.sqrt 2)
  /\ (v <> d -> dd_computed sigma v d <> dd_specified sigma v d).
Proof.
  intros Hs Hv Hd. rewrite merton_of_regular by assumption.
  split; [reflexivity | split; [reflexivity | split]].
  - apply dd_gap; assumption.
  - intros Hne Heq. pose proof sqrt2_pos as H2.
    rewrite dd_gap in Heq by assumption.
    assert (Hz : ln (v / d) / (sigma * R_sqrt.sqrt 2) = 0) by lra.
    assert (Hp : 0 < sigma * R_sqrt.sqrt 2)
      by (apply Rmult_lt_0_compat; assumption).
    apply (f_equal (fun x => x * (sigma * R_sqrt.sqrt 2))) in Hz.
    unfold Rdiv in Hz.
    rewrite Rmult_assoc, Rinv_l, Rmult_1_r, Rmult_0_l in Hz by lra.
    revert Hz. apply ln_neq_0.
    + intros H1. apply Hne.
      apply (f_equal (fun x => x * d)) in H1.
      unfold Rdiv in H1. rewrite Rmult_assoc, Rinv_l, Rmult_1_r in H1 by lra.
      lra.
    + apply Rdiv_lt_0_compat; assumption.
Qed.

Lemma swing_sigma :
  std (dropna (pct_change [Fin 1000; Fin 1200; Fin 1200; Fin 960])) = Fin 0.2.
Proof.
  unfold std, mean, sum, of_Z. float_eval. f_equal.
  rewrite <- (sqrt_square 0.2) by lra. f_equal. lra.
Qed.

Lemma swing_merton :
  merton_evaluate swing = Ok (merton_of (Fin 0.2) (Fin 1000) (Fin 500)).
Proof.
  assert (Hl : loc (_bs swing) "Total Assets"
               = Ok [Fin 1000; Fin 1200; Fin 1200; Fin 960]) by reflexivity.
  unfold merton_evaluate. rewrite Hl. cbn [bind].
  rewrite swing_sigma. reflexivity.
Qed.

(** At V = 1000, D = 500 and sigma = 0.2 the computed distance is not the
    specified one. *)
Lemma merton_distance_computed_witness :
  get (merton_of (Fin 0.2) (Fin 1000) (Fin 500)) "distance_to_default"
  = Some (VFloat (Fin (dd_computed 0.2 1000 500)))
  /\ dd_computed 0.2 1000 500 <> dd_specified 0.2 1000 500.
Proof.
  destruct (merton_distance_computed 0.2 1000 500) as (Hdd & _ & _ & Hne);
    try lra.
  split; [exact Hdd | apply Hne; lra].
Defined.

(** The computation on the company [swing]: V = 1000, D = 500, sigma = 0.2. *)
Lemma swing_distance :
  merton_evaluate swing
  = Ok [("distance_to_default", VFloat (Fin (dd_computed 0.2 1000 500)));
        ("default_probability", VFloat (Fin (1 - Phi (dd_computed 0.2 1000 500))));
        ("classification",
         VStr (_classify_merton (Fin (1 - Phi (dd_computed 0.2 1000 500)))))]
  /\ dd_computed 0.2 1000 500
     = dd_specified 0.2 1000 500 + ln (1000 / 500) / (0.2 * R_sqrt.sqrt 2).
Proof.
  split.
  - rewrite swing_merton. f_equal. apply merton_of_regular; lra.
  - apply dd_gap. lra.
Qed.

(** *** Short histories *)

Lemma dropna_length (s : Series) : (List.length (dropna s) <= List.length s)%nat.
Proof.
  unfold dropna. induction s as [| x s IH]; simpl; [auto |].
  destruct (negb (is_nan x)); simpl; auto with arith.
Qed.

Lemma pct_from_length (prev : float) (s : Series) :
  List.length (pct_from prev s) = List.length s.
Proof. revert prev. induction s as [| x s IH]; intros prev; simpl; auto. Qed.

(** Fewer than three observations leave fewer than two changes, and the
    sample standard deviation is NaN. *)
Lemma short_history_sigma (assets : Series) :
  (List.length assets < 3)%nat -> std (dropna (pct_change assets)) = NaN.
Proof.
  intros Hlen. unfold std.
  assert (Hl : (List.length (dropna (pct_change assets)) < 2)%nat).
  { destruct assets as [| x rest]; simpl in *; [auto |].
    pose proof (dropna_length (pct_from x rest)) as Hd.
    rewrite pct_from_length in Hd.
    apply Nat.le_lt_trans with (List.length rest); [exact Hd |].
    apply Nat.succ_lt_mono. exact Hlen. }
  apply Nat.ltb_lt in Hl. now rewrite Hl.
Qed.

Lemma add_nan_r (a : float) : (a + NaN)%float = NaN.
Proof. now destruct a. Qed.

(** A NaN volatility passes the degeneracy test and is classified. *)
Lemma merton_of_nan (v d : R) :
  0 < v -> 0 < d ->
  merton_of NaN (Fin v) (Fin d)
  = [("distance_to_default", VFloat NaN);
     ("default_probability", VFloat NaN);
     ("classification", VStr "Distress Zone")].
Proof.
  intros Hv Hd. unfold merton_of, square. simpl.
  rewrite (proj2 (Rleb_gt v 0)) by lra.
  rewrite (proj2 (Rleb_gt d 0)) by lra.
  simpl. rewrite add_nan_r. reflexivity.
Qed.

(** C3, as the code behaves: a company with fewer than three total-asset
    observations and positive V and D is not treated as degenerate; its
    volatility is NaN, the distance and the probability are NaN, and the
    classification is Distress Zone. *)
Theorem short_history_distress (company : Company) (assets : Series) (v d : R) :
  loc (_bs company) "Total Assets" = Ok assets ->
  (List.length assets < 3)%nat ->
  total_assets company = Ok (Fin v) ->
  current_liabilities company = Ok (Fin d) ->
  0 < v -> 0 < d ->
  merton_evaluate company
  = Ok [("distance_to_default", VFloat NaN);
        ("default_probability", VFloat NaN);
        ("classification", VStr "Distress Zone")].
Proof.
  intros Hl Hlen Hv Hd Pv Pd.
  unfold merton_evaluate. rewrite Hl. cbn [bind].
  rewrite short_history_sigma, Hv, Hd by assumption. cbn [bind].
  now rewrite merton_of_nan.
Qed.

Lemma short_history_distress_witness :
  merton_evaluate young
  = Ok [("distance_to_default", VFloat NaN);
        ("default_probability", VFloat NaN);
        ("classification", VStr "Distress Zone")].
Proof.
  apply (short_history_distress young [Fin 1000; Fin 900] 1000 500);
    try reflexivity; try lra.
  simpl. auto with arith.
Defined.

(** *** The degenerate case *)

Lemma merton_of_degenerate (sigma v d : float) :
  (sigma ==? Fin 0)%float || (v <=? Fin 0)%float || (d <=? Fin 0)%float = true ->
  merton_of sigma v d = merton_fallback.
Proof. intros H. unfold merton_of. now rewrite H. Qed.

(** C2, as the code behaves: in the degenerate case the Merton model
    returns the fallback dictionary, with probability NaN, classification
    Grey Zone and no distance to default, without raising; the orchestrator
    then fails with a [ValidationError] when it builds [MertonDetail], whose
    [distance_to_default] field is required, and the endpoint answers 400. *)
Theorem degenerate_merton_fails_validation (yf : Provider) (request : ZScoreRequest)
    (log log' : CallLog) (company : Company) (altman_model : AltmanValuationModel)
    (altman : AltmanEvaluation) (v d : float) (rest : Series) :
  Company.__init__ yf (req_ticker request) (req_industry_type request) log
  = (Ok company, log') ->
  for_industry_type (req_industry_type request) = Ok altman_model ->
  Models.evaluate altman_model company = Ok altman ->
  loc (_bs company) "Total Assets" = Ok (v :: rest) ->
  current_liabilities company = Ok d ->
  (std (dropna (pct_change (v :: rest))) ==? Fin 0)%float
  || (v <=? Fin 0)%float || (d <=? Fin 0)%float = true ->
  merton_evaluate company = Ok merton_fallback
  /\ get merton_fallback "distance_to_default" = None
  /\ combined_decision (a_classification altman) "Grey Zone" <> None
  /\ evaluate_company yf request log = (Raise ValidationError, log')
  /\ endpoint_evaluate yf request log = (inr 400%Z, log').
Proof.
  intros Hinit Hmodel Halt Hl Hd Hdeg.
  assert (Hm : merton_evaluate company = Ok merton_fallback).
  { unfold merton_evaluate, total_assets, bs_item. rewrite Hl. cbn [bind iloc0].
    rewrite Hd. cbn [bind]. now rewrite merton_of_degenerate. }
  assert (He : evaluate_company yf request log = (Raise ValidationError, log')).
  { unfold evaluate_company. rewrite Hinit.
    unfold evaluate_fetched. rewrite Hmodel. cbn [bind].
    rewrite Halt. cbn [bind]. rewrite Hm. reflexivity. }
  repeat split.
  - exact Hm.
  - pose proof (classify_in_zones altman_model) as Hz.
    unfold Models.evaluate in Halt.
    apply bind_ok in Halt as (zr & _ & Halt). injection Halt as <-.
    cbn [a_classification].
    destruct (Hz (fst zr)) as [<- | [<- | [<- | []]]]; discriminate.
  - exact He.
  - unfold endpoint_evaluate. now rewrite He.
Qed.

Lemma flat_sigma :
  std (dropna (pct_change [Fin 1000; Fin 1000; Fin 1000; Fin 1000])) = Fin 0.
Proof.
  unfold std, mean, sum, of_Z. float_eval. f_equal.
  match goal with |- R_sqrt.sqrt ?e = 0 => replace e with 0 by lra end.
  apply sqrt_0.
Qed.

Lemma flat_altman :
  exists altman, Models.evaluate AltmanClassic flat = Ok altman.
Proof. unfold Models.evaluate, compute. ratio_eval. eexists. reflexivity. Qed.

Lemma degenerate_merton_fails_validation_witness :
  merton_evaluate flat = Ok merton_fallback
  /\ evaluate_company yf_demo {| req_ticker := "FLT"; req_industry_type := 1 |} []
     = (Raise ValidationError, ["FLT"])
  /\ endpoint_evaluate yf_demo {| req_ticker := "FLT"; req_industry_type := 1 |} []
     = (inr 400%Z, ["FLT"]).
Proof.
  destruct flat_altman as [altman Halt].
  destruct (degenerate_merton_fails_validation yf_demo
              {| req_ticker := "FLT"; req_industry_type := 1 |} [] ["FLT"]
              flat AltmanClassic altman (Fin 1000)
              (Fin 500) [Fin 1000; Fin 1000; Fin 1000])
    as (Hm & _ & _ & He & Hh); try reflexivity; try assumption.
  - rewrite flat_sigma. unfold Float.eqb. now rewrite (proj2 (Reqb_eq 0 0)).
  - repeat split; assumption.
Defined.

(** ** The combined decision in the pipeline *)

Lemma combined_decision_on_zones (a m : string) :
  In a zones -> In m zones ->
  exists d, combined_decision a m = Some d /\ In d decisions.
Proof.
  unfold zones, decisions.
  intros [<- | [<- | [<- | []]]] [<- | [<- | [<- | []]]];
    eexists; (split; [reflexivity | simpl; auto 6]).
Qed.

Lemma combined_decision_some (a m d : string) :
  combined_decision a m = Some d ->
  In d decisions
  /\ ((In a zones /\ In m zones) \/ a = "Distress Zone" \/ m = "Distress Zone").
Proof.
  unfold combined_decision, zones, decisions.
  destruct (String.eqb_spec a "Distress Zone") as [-> | Ha]; simpl.
  { intros [= <-]. split; [simpl; auto 6 | auto]. }
  destruct (String.eqb_spec m "Distress Zone") as [-> | Hm]; simpl.
  { intros [= <-]. split; [simpl; auto 6 | auto]. }
  destruct (a =? "Safe Zone")%string eqn:Eas;
    destruct (m =? "Safe Zone")%string eqn:Ems;
    destruct (a =? "Grey Zone")%string eqn:Eag;
    destruct (m =? "Grey Zone")%string eqn:Emg;
    simpl; try discriminate; intros [= <-];
    repeat match goal with
           | H : (_ =? _)%string = true |- _ => apply String.eqb_eq in H
           end;
    subst; (split; [simpl; auto 6 |]); left; simpl; auto.
Qed.

Lemma combined_decision_outside (a m : string) :
  a <> "Distress Zone" -> m <> "Distress Zone" ->
  ~ In a zones \/ ~ In m zones ->
  combined_decision a m = None.
Proof.
  intros Ha Hm Hout.
  destruct (combined_decision a m) as [d |] eqn:E; [| reflexivity].
  apply combined_decision_some in E as (_ & [[Hia Him] | [-> | ->]]);
    tauto.
Qed.

Lemma merton_of_classification (sigma v d : float) :
  exists cls,
    get (merton_of sigma v d) "classification" = Some (VStr cls) /\ In cls zones.
Proof.
  unfold merton_of.
  destruct ((sigma ==? Fin 0)%float || (v <=? Fin 0)%float || (d <=? Fin 0)%float).
  - exists "Grey Zone". split; [reflexivity | unfold zones; simpl; auto].
  - eexists. split; [reflexivity | apply classify_merton_in_zones].
Qed.

Lemma merton_evaluate_classification (company : Company) (merton : dict) :
  merton_evaluate company = Ok merton ->
  exists cls, get_str merton "classification" = Ok cls /\ In cls zones.
Proof.
  unfold merton_evaluate. intros H.
  apply bind_ok in H as (assets & _ & H).
  apply bind_ok in H as (v & _ & H).
  apply bind_ok in H as (d & _ & H).
  injection H as <-.
  destruct (merton_of_classification (std (dropna (pct_change assets))) v d)
    as (cls & Hg & Hin).
  exists cls. unfold get_str. now rewrite Hg.
Qed.

Lemma evaluate_classification (model : AltmanValuationModel) (company : Company)
    (altman : AltmanEvaluation) :
  Models.evaluate model company = Ok altman -> In (a_classification altman) zones.
Proof.
  unfold Models.evaluate. intros H.
  apply bind_ok in H as (zr & _ & H). injection H as <-.
  apply classify_in_zones.
Qed.

(** C10: when neither argument is Distress Zone, [combined_decision]
    returns [None] as soon as one argument is not a zone label; a returned
    decision is one of the four decisions and comes either from two zone
    labels or from a Distress Zone on one side.  Both classifiers return
    zone labels only, so in the pipeline the combiner always returns a
    decision, and every completed evaluation carries the decision the
    combiner gives for its two classifications. *)
Theorem combined_decision_never_missing :
  (forall a m : string,
      a <> "Distress Zone" -> m <> "Distress Zone" ->
      ~ In a zones \/ ~ In m zones -> combined_decision a m = None)
  /\ (forall a m d : string,
      combined_decision a m = Some d ->
      In d decisions
      /\ ((In a zones /\ In m zones) \/ a = "Distress Zone" \/ m = "Distress Zone"))
  /\ (forall (self : AltmanValuationModel) (z : float), In (classify self z) zones)
  /\ (forall p : float, In (_classify_merton p) zones)
  /\ (forall (model : AltmanValuationModel) (company : Company)
             (altman : AltmanEvaluation) (merton : dict),
      Models.evaluate model company = Ok altman ->
      merton_evaluate company = Ok merton ->
      exists cls d,
        get_str merton "classification" = Ok cls
        /\ combined_decision (a_classification altman) cls = Some d)
  /\ (forall (yf : Provider) (request : ZScoreRequest) (log log' : CallLog)
             (response : ZScoreResponse),
      evaluate_company yf request log = (Ok response, log') ->
      In (resp_combined_decision response) decisions
      /\ combined_decision (resp_classification response)
           (classification (resp_merton response))
         = Some (resp_combined_decision response)).
Proof.
  split; [exact combined_decision_outside |].
  split; [exact combined_decision_some |].
  split; [exact classify_in_zones |].
  split; [exact classify_merton_in_zones |].
  split.
  - intros model company altman merton Halt Hm.
    apply evaluate_classification in Halt.
    apply merton_evaluate_classification in Hm as (cls & Hg & Hin).
    destruct (combined_decision_on_zones _ _ Halt Hin) as (d & Hd & _).
    exists cls, d. split; assumption.
  - intros yf request log log' response H.
    unfold evaluate_company in H.
    destruct (Company.__init__ _ _ _ _) as [[company | e] l]; [| discriminate].
    injection H as H _.
    unfold evaluate_fetched in H.
    apply bind_ok in H as (model & _ & H).
    apply bind_ok in H as (altman & _ & H).
    apply bind_ok in H as (merton & _ & H).
    apply bind_ok in H as (cls & Hcls & H).
    apply bind_ok in H as (detail & Hdet & H).
    unfold ZScoreResponse_new in H.
    destruct (combined_decision (a_classification altman) cls) as [d |] eqn:Hd;
      [| discriminate].
    injection H as <-. cbn [resp_combined_decision resp_classification resp_merton].
    assert (Hc : classification detail = cls).
    { unfold MertonDetail_new in Hdet. unfold get_str in Hcls.
      destruct (get merton "distance_to_default") as [[dd | ?] |]; try discriminate.
      destruct (get merton "default_probability") as [[p | ?] |]; try discriminate.
      destruct (get merton "classification") as [[? | c] |]; try discriminate.
      injection Hdet as <-. injection Hcls as <-. reflexivity. }
    rewrite Hc. split; [| exact Hd].
    apply combined_decision_some in Hd. tauto.
Qed.

(** A non-degenerate company goes through the whole pipeline. *)
Lemma swing_completes :
  exists response,
    evaluate_company yf_demo {| req_ticker := "SWG"; req_industry_type := 1 |} []
    = (Ok response, ["SWG"]).
Proof.
  assert (Hinit : Company.__init__ yf_demo "SWG" 1 [] = (Ok swing, ["SWG"]))
    by reflexivity.
  assert (Halt : exists altman, Models.evaluate AltmanClassic swing = Ok altman).
  { unfold Models.evaluate, compute. ratio_eval. eexists. reflexivity. }
  destruct Halt as [altman Halt].
  destruct swing_distance as [Hm _].
  pose proof (evaluate_classification _ _ _ Halt) as Hza.
  pose proof (classify_merton_in_zones (Fin (1 - Phi (dd_computed 0.2 1000 500))))
    as Hzm.
  destruct (combined_decision_on_zones _ _ Hza Hzm) as (d & Hd & _).
  unfold evaluate_company. cbn [req_ticker req_industry_type]. rewrite Hinit.
  unfold evaluate_fetched. cbn [req_ticker req_industry_type].
  change (for_industry_type 1) with (Ok AltmanClassic). cbn [bind].
  rewrite Halt. cbn [bind]. rewrite Hm. cbn [bind].
  unfold get_str, MertonDetail_new. cbn [get String.eqb Ascii.eqb Bool.eqb bind].
  rewrite Hd. eexists. reflexivity.
Qed.

Lemma combined_decision_never_missing_witness :
  exists response,
    evaluate_company yf_demo {| req_ticker := "SWG"; req_industry_type := 1 |} []
    = (Ok response, ["SWG"])
    /\ In (resp_combined_decision response) decisions.
Proof.
  destruct swing_completes as [response H].
  destruct combined_decision_never_missing as (_ & _ & _ & _ & _ & Hpipe).
  exists response. split; [exact H | exact (proj1 (Hpipe _ _ _ _ _ H))].
Defined.

(** ** Zero denominators *)

Lemma div_zero_not_finite (n : float) : is_finite (n / Fin 0)%float = false.
Proof.
  destruct n as [x | | |]; simpl; try reflexivity.
  - rewrite (proj2 (Reqb_eq 0 0)) by reflexivity.
    destruct (Reqb x 0); [reflexivity |]. now destruct (Rltb 0 x).
  - now destruct (Rleb 0 0).
  - now destruct (Rleb 0 0).
Qed.

Lemma ratio_zero (num : result float) (n : float) :
  num = Ok n ->
  exists q, ratio num (Ok (Fin 0)) = Ok q /\ is_finite q = false.
Proof.
  intros ->. exists (n / Fin 0)%float.
  split; [reflexivity | apply div_zero_not_finite].
Qed.

Lemma loc_raises (df : DataFrame) (label : string) (e : exn) :
  loc df label = Raise e -> e = KeyError.
Proof.
  induction df as [| [k s] rest IH]; simpl.
  - now intros [= <-].
  - destruct (k =? label)%string; [discriminate | exact IH].
Qed.

Lemma item_raises (df : DataFrame) (label : string) (e : exn) :
  (s <- loc df label ;; iloc0 s) = Raise e -> lookup_error e.
Proof.
  destruct (loc df label) as [s | e'] eqn:E; simpl.
  - destruct s; simpl; [intros [= <-]; right; reflexivity | discriminate].
  - intros [= <-]. left. eapply loc_raises, E.
Qed.

Lemma ratio_raises (num den : result float) (e : exn) :
  (forall e', num = Raise e' -> lookup_error e') ->
  (forall e', den = Raise e' -> lookup_error e') ->
  ratio num den = Raise e -> lookup_error e.
Proof.
  intros Hn Hd. unfold ratio.
  destruct num as [n | en]; simpl; [| intros [= <-]; now apply Hn].
  destruct den as [d | ed]; simpl; [discriminate | intros [= <-]; now apply Hd].
Qed.

Lemma ratios_raise (company : Company) (e : exn) :
  (Company.x1 company = Raise e -> lookup_error e)
  /\ (Company.x2 company = Raise e -> lookup_error e)
  /\ (Company.x3 company = Raise e -> lookup_error e)
  /\ (Company.x4 company = Raise e -> lookup_error e)
  /\ (Company.x4_mod company = Raise e -> lookup_error e)
  /\ (Company.x5 company = Raise e -> lookup_error e).
Proof.
  repeat split; apply ratio_raises; intros e';
    try apply item_raises; discriminate.
Qed.

Lemma compute_raises (model : AltmanValuationModel) (company : Company) (e : exn) :
  compute model company = Raise e -> lookup_error e.
Proof.
  destruct (ratios_raise company e) as (H1 & H2 & H3 & H4 & H4m & H5).
  destruct model; unfold compute;
    destruct (Company.x1 company); simpl; try (intros [= <-]; now apply H1);
    destruct (Company.x2 company); simpl; try (intros [= <-]; now apply H2);
    destruct (Company.x3 company); simpl; try (intros [= <-]; now apply H3).
  - destruct (Company.x4 company); simpl; try (intros [= <-]; now apply H4).
    destruct (Company.x5 company); simpl; [discriminate |].
    intros [= <-]. now apply H5.
  - destruct (Company.x4_mod company); simpl; try (intros [= <-]; now apply H4m).
    destruct (Company.x5 company); simpl; [discriminate |].
    intros [= <-]. now apply H5.
  - destruct (Company.x4_mod company); simpl; try (intros [= <-]; now apply H4m).
    destruct (Company.x5 company); simpl; [discriminate |].
    intros [= <-]. now apply H5.
Qed.

(** C4 as stated fails: on a statement with zero total assets and zero
    total liabilities every ratio is computed, as plus infinity, and the
    score is returned; nothing is raised. *)
Lemma zero_denominator_counterexample :
  total_assets hollow = Ok (Fin 0)
  /\ total_liabilities hollow = Ok (Fin 0)
  /\ Company.x1 hollow = Ok PInf
  /\ Company.x2 hollow = Ok PInf
  /\ Company.x3 hollow = Ok PInf
  /\ Company.x4 hollow = Ok PInf
  /\ Company.x4_mod hollow = Ok PInf
  /\ Company.x5 hollow = Ok PInf
  /\ compute AltmanClassic hollow = Ok (PInf, mk_ratios PInf PInf PInf PInf PInf)
  /\ compute AltmanClassic hollow <> Raise RuntimeError.
Proof.
  assert (Hc : compute AltmanClassic hollow
               = Ok (PInf, mk_ratios PInf PInf PInf PInf PInf)).
  { unfold compute. ratio_eval. reflexivity. }
  repeat split; try (ratio_eval; reflexivity); try exact Hc.
  rewrite Hc. discriminate.
Qed.

(** C4, amended: a zero denominator raises nothing.  With total assets
    zero, x1, x2, x3 and x5 are returned and none is finite; with total
    liabilities zero, x4 and x4_mod are returned and neither is finite; and
    computing a score can only fail with a lookup error of a missing line
    item, never with a data-retrieval or validation error. *)
Theorem zero_denominator_no_error (company : Company) :
  (total_assets company = Ok (Fin 0) ->
   forall wc re eb rev : float,
     working_capital company = Ok wc ->
     retained_earnings company = Ok re ->
     ebit company = Ok eb ->
     total_revenue company = Ok rev ->
     exists q1 q2 q3 q5,
       Company.x1 company = Ok q1 /\ Company.x2 company = Ok q2
       /\ Company.x3 company = Ok q3 /\ Company.x5 company = Ok q5
       /\ is_finite q1 = false /\ is_finite q2 = false
       /\ is_finite q3 = false /\ is_finite q5 = false)
  /\ (total_liabilities company = Ok (Fin 0) ->
      forall be : float,
        book_equity company = Ok be ->
        exists q4 q4m,
          Company.x4 company = Ok q4 /\ Company.x4_mod company = Ok q4m
          /\ is_finite q4 = false /\ is_finite q4m = false)
  /\ (forall (model : AltmanValuationModel) (e : exn),
        compute model company = Raise e -> e = KeyError \/ e = IndexError).
Proof.
  split; [| split].
  - intros Hta wc re eb rev Hwc Hre Heb Hrev.
    unfold Company.x1, Company.x2, Company.x3, Company.x5. rewrite Hta.
    destruct (ratio_zero _ _ Hwc) as (q1 & E1 & F1).
    destruct (ratio_zero _ _ Hre) as (q2 & E2 & F2).
    destruct (ratio_zero _ _ Heb) as (q3 & E3 & F3).
    destruct (ratio_zero _ _ Hrev) as (q5 & E5 & F5).
    exists q1, q2, q3, q5. repeat split; assumption.
  - intros Htl be Hbe.
    unfold Company.x4, Company.x4_mod. rewrite Htl.
    destruct (ratio_zero (market_equity company) _ eq_refl) as (q4 & E4 & F4).
    destruct (ratio_zero _ _ Hbe) as (q4m & E4m & F4m).
    exists q4, q4m. repeat split; assumption.
  - intros model e. apply compute_raises.
Qed.

(** * Further properties of the code *)

(** ** Ticker normalisation *)

Ltac by_ascii c := destruct c as [[] [] [] [] [] [] [] []]; reflexivity.

Lemma is_space_upper_char (c : Ascii.ascii) : is_space (upper_char c) = is_space c.
Proof. by_ascii c. Qed.

Lemma upper_char_idem (c : Ascii.ascii) : upper_char (upper_char c) = upper_char c.
Proof. by_ascii c. Qed.

Lemma is_lower_upper_char (c : Ascii.ascii) : is_lower (upper_char c) = false.
Proof. by_ascii c. Qed.

Lemma upper_char_ascii (c : Ascii.ascii) :
  (Ascii.nat_of_ascii (upper_char c) <? 128)%nat = (Ascii.nat_of_ascii c <? 128)%nat.
Proof. by_ascii c. Qed.

Lemma upper_idem (s : string) : upper (upper s) = upper s.
Proof. induction s as [| c s IH]; simpl; [| rewrite upper_char_idem, IH]; reflexivity. Qed.

Lemma upper_no_lower (s : string) : no_lower (upper s) = true.
Proof. induction s as [| c s IH]; simpl; [| rewrite is_lower_upper_char, IH]; reflexivity. Qed.

Lemma upper_ascii (s : string) : is_ascii (upper s) = is_ascii s.
Proof. induction s as [| c s IH]; simpl; [| rewrite upper_char_ascii, IH]; reflexivity. Qed.

Lemma upper_empty (s : string) : upper s = "" -> s = "".
Proof. destruct s; [reflexivity | discriminate]. Qed.

Lemma lstrip_upper (s : string) : lstrip (upper s) = upper (lstrip s).
Proof.
  induction s as [| c s IH]; simpl; [reflexivity |].
  rewrite is_space_upper_char. destruct (is_space c); [exact IH | reflexivity].
Qed.

Lemma rstrip_upper (s : string) : rstrip (upper s) = upper (rstrip s).
Proof.
  induction s as [| c s IH]; simpl; [reflexivity |].
  rewrite IH, is_space_upper_char.
  destruct (rstrip s); simpl; [destruct (is_space c) |]; reflexivity.
Qed.

Lemma strip_upper (s : string) : strip (upper s) = upper (strip s).
Proof. unfold strip. now rewrite lstrip_upper, rstrip_upper. Qed.

Lemma lstrip_clean_head (s : string) : clean_head (lstrip s).
Proof.
  induction s as [| c s IH]; simpl; [exact I |].
  destruct (is_space c) eqn:E; [exact IH | exact E].
Qed.

Lemma lstrip_fixed (s : string) : clean_head s -> lstrip s = s.
Proof. destruct s as [| c s]; simpl; [reflexivity | now intros ->]. Qed.

Lemma rstrip_clean_head (s : string) : clean_head s -> clean_head (rstrip s).
Proof.
  destruct s as [| c s]; simpl; [trivial |]. intros Hc.
  destruct (rstrip s); [rewrite Hc |]; exact Hc.
Qed.

Lemma rstrip_idem (s : string) : rstrip (rstrip s) = rstrip s.
Proof.
  induction s as [| c s IH]; simpl; [reflexivity |].
  destruct (rstrip s) as [| c' s'] eqn:E.
  - destruct (is_space c) eqn:Ec; simpl; [reflexivity | now rewrite Ec].
  - change (rstrip (String c (String c' s'))) with
      (match rstrip (String c' s') with
       | EmptyString => if is_space c then EmptyString else String c EmptyString
       | rest' => String c rest'
       end).
    now rewrite IH.
Qed.

Lemma strip_idem (s : string) : strip (strip s) = strip s.
Proof.
  unfold strip.
  rewrite (lstrip_fixed (rstrip (lstrip s)))
    by apply rstrip_clean_head, lstrip_clean_head.
  apply rstrip_idem.
Qed.

Lemma lstrip_ascii (s : string) : is_ascii s = true -> is_ascii (lstrip s) = true.
Proof.
  induction s as [| c s IH]; simpl; [trivial |].
  intros H. apply andb_true_iff in H as [Hc Hs].
  destruct (is_space c); [auto |]. simpl. now rewrite Hc, Hs.
Qed.

Lemma rstrip_ascii (s : string) : is_ascii s = true -> is_ascii (rstrip s) = true.
Proof.
  induction s as [| c s IH]; simpl; [trivial |].
  intros H. apply andb_true_iff in H as [Hc Hs]. specialize (IH Hs).
  destruct (rstrip s); [destruct (is_space c) |]; simpl; try reflexivity.
  - now rewrite Hc.
  - simpl in IH. now rewrite Hc, IH.
Qed.

Lemma lstrip_all_space (s : string) : lstrip s = "" <-> all_space s = true.
Proof.
  induction s as [| c s IH]; simpl; [tauto |].
  destruct (is_space c); simpl; [exact IH |]. split; discriminate.
Qed.

Lemma rstrip_all_space (s : string) : rstrip s = "" <-> all_space s = true.
Proof.
  induction s as [| c s IH]; simpl; [tauto |].
  destruct (rstrip s) as [| c' s'].
  - destruct (is_space c); simpl; [tauto |]. split; discriminate.
  - split; [discriminate |]. intros H.
    apply andb_true_iff in H as [_ H]. apply IH in H. discriminate.
Qed.

Lemma all_space_lstrip (s : string) : all_space (lstrip s) = all_space s.
Proof.
  induction s as [| c s IH]; simpl; [reflexivity |].
  destruct (is_space c) eqn:E; simpl; [exact IH | now rewrite E].
Qed.

Lemma strip_all_space (s : string) : strip s = "" <-> all_space s = true.
Proof. unfold strip. now rewrite rstrip_all_space, all_space_lstrip. Qed.

(** X1: the ticker a request carries is in normal form.  For an ASCII
    ticker that [validate_ticker] accepts, the result is not empty, is
    ASCII, has no lower-case letter and no white space at either end, and is
    accepted unchanged when validated again. *)
Theorem validate_ticker_normal_form (ticker normalised : string) :
  is_ascii ticker = true ->
  validate_ticker ticker = Ok normalised ->
  normalised <> ""
  /\ is_ascii normalised = true
  /\ no_lower normalised = true
  /\ strip normalised = normalised
  /\ upper normalised = normalised
  /\ validate_ticker normalised = Ok normalised.
Proof.
  intros Hascii. unfold validate_ticker.
  destruct (String.eqb_spec (upper (strip ticker)) "") as [E | E]; [discriminate |].
  intros [= <-].
  assert (Hs : strip (upper (strip ticker)) = upper (strip ticker))
    by now rewrite strip_upper, strip_idem.
  assert (Hu : upper (upper (strip ticker)) = upper (strip ticker))
    by apply upper_idem.
  repeat split.
  - exact E.
  - rewrite upper_ascii. unfold strip. now apply rstrip_ascii, lstrip_ascii.
  - apply upper_no_lower.
  - exact Hs.
  - exact Hu.
  - rewrite Hs, Hu.
    destruct (String.eqb_spec (upper (strip ticker)) ""); [contradiction | reflexivity].
Qed.

Lemma validate_ticker_normal_form_witness :
  validate_ticker "  aapl " = Ok "AAPL"
  /\ validate_ticker "AAPL" = Ok "AAPL".
Proof.
  split; [reflexivity |].
  apply (validate_ticker_normal_form "  aapl " "AAPL"); reflexivity.
Defined.

(** X2: an ASCII ticker is rejected, with [ValueError], exactly when it
    consists of white space only (the empty string included); no other
    exception is raised. *)
Theorem validate_ticker_rejects_blank (ticker : string) :
  is_ascii ticker = true ->
  (validate_ticker ticker = Raise ValueError <-> all_space ticker = true)
  /\ (forall e, validate_ticker ticker = Raise e -> e = ValueError).
Proof.
  intros _. unfold validate_ticker.
  destruct (String.eqb_spec (upper (strip ticker)) "") as [E | E].
  - split; [| now intros e [= <-]].
    split; [intros _ | reflexivity].
    apply strip_all_space, upper_empty, E.
  - split; [| discriminate].
    split; [discriminate |]. intros H.
    apply strip_all_space in H. rewrite H in E. now elim E.
Qed.

Lemma validate_ticker_rejects_blank_witness :
  validate_ticker "   " = Raise ValueError /\ all_space "   " = true.
Proof.
  split; [| reflexivity].
  apply (validate_ticker_rejects_blank "   "); reflexivity.
Defined.

(** ** Building the company *)

Lemma ZScoreRequest_new_ok (ticker : string) (industry_type : Z)
    (request : ZScoreRequest) :
  ZScoreRequest_new ticker industry_type = Ok request ->
  validate_ticker ticker = Ok (req_ticker request)
  /\ req_industry_type request = industry_type
  /\ valid_industry_type industry_type = true.
Proof.
  unfold ZScoreRequest_new, validate_industry_type.
  destruct (validate_ticker ticker) as [t | e]; [| discriminate].
  destruct (valid_industry_type industry_type); simpl; [| discriminate].
  intros [= <-]. auto.
Qed.

Lemma valid_industry_model (industry_type : Z) :
  valid_industry_type industry_type = true ->
  exists model, for_industry_type industry_type = Ok model.
Proof.
  unfold valid_industry_type, for_industry_type.
  destruct (industry_type =? 1)%Z; [eauto |].
  destruct (industry_type =? 2)%Z; [eauto |].
  destruct (industry_type =? 3)%Z; [eauto | discriminate].
Qed.

(** X3: a request that passed the schema reaches the provider exactly once,
    with its normalised ticker, whatever the evaluation then returns; and
    the model factory accepts its industry code. *)
Theorem validated_request_fetches_once (yf : Provider) (ticker : string)
    (industry_type : Z) (request : ZScoreRequest) (log : CallLog) :
  ZScoreRequest_new ticker industry_type = Ok request ->
  snd (evaluate_company yf request log) = (log ++ [req_ticker request])%list
  /\ snd (endpoint_evaluate yf request log) = (log ++ [req_ticker request])%list
  /\ exists model, for_industry_type (req_industry_type request) = Ok model.
Proof.
  intros H. apply ZScoreRequest_new_ok in H as (_ & Hi & Hv).
  rewrite <- Hi in Hv.
  pose proof (valid_industry_fetches yf (req_ticker request) _ log Hv) as Hl.
  assert (He : snd (evaluate_company yf request log)
               = (log ++ [req_ticker request])%list).
  { unfold evaluate_company.
    destruct (Company.__init__ yf (req_ticker request) (req_industry_type request) log)
      as [[company | e] l]; exact Hl. }
  split; [exact He | split].
  - unfold endpoint_evaluate.
    destruct (evaluate_company yf request log) as [[response | e] l]; exact He.
  - now apply valid_industry_model.
Qed.

Lemma validated_request_fetches_once_witness :
  snd (evaluate_company yf_demo {| req_ticker := "FLT"; req_industry_type := 1 |} [])
  = ["FLT"].
Proof.
  apply (validated_request_fetches_once yf_demo " flt " 1
           {| req_ticker := "FLT"; req_industry_type := 1 |} []).
  reflexivity.
Defined.

Lemma company_init_cases (yf : Provider) (ticker : string)
    (industry_type : Z) (log : CallLog) :
  (valid_industry_type industry_type = false
   /\ Company.__init__ yf ticker industry_type log = (Raise ValueError, log))
  \/ (valid_industry_type industry_type = true
      /\ (yf ticker = None
          \/ exists obj, yf ticker = Some obj
               /\ (history_close obj = [] \/ sharesOutstanding obj = None))
      /\ Company.__init__ yf ticker industry_type log
         = (Raise RuntimeError, (log ++ [ticker])%list))
  \/ (valid_industry_type industry_type = true
      /\ exists obj price rest shares,
           yf ticker = Some obj
           /\ history_close obj = price :: rest
           /\ sharesOutstanding obj = Some shares
           /\ Company.__init__ yf ticker industry_type log
              = (Ok {| ticker := ticker;
                       industry_type := industry_type;
                       _bs := iloc_cols 4 (balance_sheet obj);
                       _ist := iloc_cols 4 (income_stmt obj);
                       _current_price := price;
                       _shares_outstanding := shares |},
                 (log ++ [ticker])%list)).
Proof.
  unfold Company.__init__.
  destruct (valid_industry_type industry_type); simpl; [right | left; auto].
  destruct (yf ticker) as [obj |] eqn:Ey; [| left; auto].
  destruct (history_close obj) as [| price rest] eqn:Eh; simpl.
  - left. split; [reflexivity |]. split; [| reflexivity].
    right. exists obj. auto.
  - destruct (sharesOutstanding obj) as [shares |] eqn:Es.
    + right. split; [reflexivity |]. exists obj, price, rest, shares. auto.
    + left. split; [reflexivity |]. split; [| reflexivity].
      right. exists obj. auto.
Qed.


(** *** Reporting periods kept *)

Lemma loc_iloc_cols (n : nat) (df : DataFrame) (label : string) :
  loc (iloc_cols n df) label = (s <- loc df label ;; Ok (firstn n s)).
Proof.
  induction df as [| [k s] rest IH]; simpl; [reflexivity |].
  destruct (k =? label)%string; [reflexivity | exact IH].
Qed.

Lemma iloc0_firstn (n : nat) (s : Series) : iloc0 (firstn (S n) s) = iloc0 s.
Proof. destruct s; reflexivity. Qed.

(** X5: a company built from the provider keeps, for every line item, the
    first four reporting periods and nothing more, under the same labels;
    the most recent value of every item is the provider's, so the six ratios
    depend on the first period only and the volatility on at most four
    total-asset observations. *)
Theorem company_keeps_four_periods (yf : Provider) (ticker : string)
    (industry_type : Z) (log log' : CallLog) (company : Company) (obj : TickerData) :
  yf ticker = Some obj ->
  Company.__init__ yf ticker industry_type log = (Ok company, log') ->
  (forall label,
      loc (_bs company) label = (s <- loc (balance_sheet obj) label ;; Ok (firstn 4 s))
      /\ loc (_ist company) label = (s <- loc (income_stmt obj) label ;; Ok (firstn 4 s)))
  /\ (forall label s, loc (_bs company) label = Ok s -> (List.length s <= 4)%nat)
  /\ (forall label,
      bs_item company label = (s <- loc (balance_sheet obj) label ;; iloc0 s)
      /\ ist_item company label = (s <- loc (income_stmt obj) label ;; iloc0 s)).
Proof.
  intros Hy Hinit.
  unfold Company.__init__ in Hinit. rewrite Hy in Hinit.
  destruct (valid_industry_type industry_type); simpl in Hinit; [| discriminate].
  destruct (history_close obj) as [| price rest]; simpl in Hinit; [discriminate |].
  destruct (sharesOutstanding obj) as [shares |]; [| discriminate].
  injection Hinit as <- _.
  cbn [_bs _ist].
  assert (Hitem : forall df label,
             (s <- loc (iloc_cols 4 df) label ;; iloc0 s)
             = (s <- loc df label ;; iloc0 s)).
  { intros df label. rewrite loc_iloc_cols.
    destruct (loc df label) as [s | e]; cbn [bind];
      [apply iloc0_firstn | reflexivity]. }
  split; [| split].
  - intros label. split; apply loc_iloc_cols.
  - intros label s. rewrite loc_iloc_cols.
    destruct (loc (balance_sheet obj) label) as [s0 | e]; cbn [bind];
      [| discriminate].
    intros H. assert (E : s = firstn 4 s0) by congruence.
    rewrite E. apply firstn_le_length.
  - intros label. unfold bs_item, ist_item. cbn [_bs _ist]. split; apply Hitem.
Qed.

(** A provider with six periods of total assets. *)
Lemma company_keeps_four_periods_witness :
  let obj := {| balance_sheet :=
                  [("Total Assets", [Fin 6; Fin 5; Fin 4; Fin 3; Fin 2; Fin 1])];
                income_stmt := [];
                history_close := [Fin 10];
                sharesOutstanding := Some 50%Z |} in
  exists company,
    Company.__init__ (fun _ => Some obj) "SIX" 2 [] = (Ok company, ["SIX"])
    /\ loc (_bs company) "Total Assets" = Ok [Fin 6; Fin 5; Fin 4; Fin 3]
    /\ total_assets company = Ok (Fin 6).
Proof.
  intros obj. eexists. split; [reflexivity |].
  destruct (company_keeps_four_periods (fun _ => Some obj) "SIX" 2 [] ["SIX"] _ obj
              eq_refl eq_refl) as (Hloc & _ & Hitem).
  split.
  - rewrite (proj1 (Hloc "Total Assets")). reflexivity.
  - unfold total_assets. rewrite (proj1 (Hitem "Total Assets")). reflexivity.
Defined.

(** ** Failures of the pipeline *)

Lemma evaluate_raises (model : AltmanValuationModel) (company : Company) (e : exn) :
  Models.evaluate model company = Raise e -> lookup_error e.
Proof.
  unfold Models.evaluate.
  destruct (compute model company) as [zr | e'] eqn:E; simpl; [discriminate |].
  intros [= <-]. eapply compute_raises, E.
Qed.

Lemma merton_evaluate_raises (company : Company) (e : exn) :
  merton_evaluate company = Raise e -> lookup_error e.
Proof.
  unfold merton_evaluate.
  destruct (loc (_bs company) "Total Assets") as [assets | e1] eqn:E1; cbn [bind].
  - destruct (total_assets company) as [v | e2] eqn:E2; cbn [bind].
    + destruct (current_liabilities company) as [d | e3] eqn:E3; cbn [bind];
        [discriminate |].
      intros [= <-]. eapply item_raises, E3.
    + intros [= <-]. eapply item_raises, E2.
  - intros [= <-]. left. eapply loc_raises, E1.
Qed.

Lemma merton_evaluate_ok (company : Company) (merton : dict) :
  merton_evaluate company = Ok merton ->
  exists assets v d,
    loc (_bs company) "Total Assets" = Ok assets
    /\ total_assets company = Ok v
    /\ current_liabilities company = Ok d
    /\ merton = merton_of (std (dropna (pct_change assets))) v d.
Proof.
  unfold merton_evaluate. intros H.
  apply bind_ok in H as (assets & Ha & H).
  apply bind_ok in H as (v & Hv & H).
  apply bind_ok in H as (d & Hd & H).
  injection H as <-. exists assets, v, d. auto.
Qed.

(** [MertonDetail] can be built from the result of the Merton model exactly
    when the degenerate branch was not taken. *)
Lemma merton_detail_cases (sigma v d : float) :
  ((sigma ==? Fin 0)%float || (v <=? Fin 0)%float || (d <=? Fin 0)%float = true
   /\ merton_of sigma v d = merton_fallback
   /\ MertonDetail_new (merton_of sigma v d) = Raise ValidationError)
  \/ ((sigma ==? Fin 0)%float || (v <=? Fin 0)%float || (d <=? Fin 0)%float = false
      /\ exists dd p,
           merton_of sigma v d
           = [("distance_to_default", VFloat dd);
              ("default_probability", VFloat p);
              ("classification", VStr (_classify_merton p))]
           /\ MertonDetail_new (merton_of sigma v d)
              = Ok {| distance_to_default := dd;
                      default_probability := p;
                      classification := _classify_merton p |}).
Proof.
  unfold merton_of.
  destruct ((sigma ==? Fin 0)%float || (v <=? Fin 0)%float || (d <=? Fin 0)%float).
  - left. repeat split.
  - right. split; [reflexivity |]. eexists. eexists. split; reflexivity.
Qed.

(** X6: [MertonDetail] is built from the result of [MertonModel.evaluate]
    exactly when none of sigma = 0, V <= 0, D <= 0 holds; otherwise the
    result is the two-key fallback and building it raises
    [ValidationError]. *)
Theorem merton_detail_iff_regular (sigma v d : float) :
  ((exists detail, MertonDetail_new (merton_of sigma v d) = Ok detail)
   <-> (sigma ==? Fin 0)%float || (v <=? Fin 0)%float || (d <=? Fin 0)%float = false)
  /\ (MertonDetail_new (merton_of sigma v d) = Raise ValidationError
      <-> (sigma ==? Fin 0)%float || (v <=? Fin 0)%float || (d <=? Fin 0)%float = true)
  /\ (get (merton_of sigma v d) "distance_to_default" = None
      <-> merton_of sigma v d = merton_fallback).
Proof.
  destruct (merton_detail_cases sigma v d) as [(G & F & E) | (G & dd & p & F & E)];
    rewrite G, E, F.
  - repeat split; try discriminate; try reflexivity. intros [detail H]. discriminate.
  - repeat split; try discriminate; eauto.
Qed.

Lemma evaluate_fetched_raises (request : ZScoreRequest) (company : Company) (e : exn) :
  valid_industry_type (req_industry_type request) = true ->
  evaluate_fetched request company = Raise e ->
  (lookup_error e
   /\ exists model,
        for_industry_type (req_industry_type request) = Ok model
        /\ (Models.evaluate model company = Raise e
            \/ merton_evaluate company = Raise e))
  \/ (e = ValidationError /\ merton_evaluate company = Ok merton_fallback).
Proof.
  intros Hv. destruct (valid_industry_model _ Hv) as [model Hm].
  unfold evaluate_fetched. rewrite Hm. cbn [bind].
  destruct (Models.evaluate model company) as [altman | e1] eqn:Ea; cbn [bind].
  2:{ intros [= <-]. left. split; [eapply evaluate_raises, Ea | eauto]. }
  destruct (merton_evaluate company) as [merton | e2] eqn:Em; cbn [bind].
  2:{ intros [= <-]. left. split; [eapply merton_evaluate_raises, Em | eauto]. }
  destruct (merton_evaluate_classification _ _ Em) as (cls & Hcls & Hin).
  rewrite Hcls. cbn [bind].
  destruct (merton_evaluate_ok _ _ Em) as (assets & v & d & _ & _ & _ & ->).
  destruct (merton_detail_cases (std (dropna (pct_change assets))) v d)
    as [(_ & F & E) | (_ & dd & p & _ & E)]; rewrite E; cbn [bind].
  - intros [= <-]. right. split; [reflexivity |]. now rewrite <- F.
  - pose proof (evaluate_classification _ _ _ Ea) as Hza.
    destruct (combined_decision_on_zones _ _ Hza Hin) as (dec & Hd & _).
    rewrite Hd. discriminate.
Qed.

(** X7: the statuses of the endpoint.  A failed evaluation answers 400 for
    an invalid industry code, before any provider call; 422 when the company
    cannot be built from the provider; 500 when a line item is missing from
    the statements (a lookup error); and 400 when the Merton model took its
    degenerate branch.  Nothing else makes it fail. *)
Theorem endpoint_statuses (yf : Provider) (request : ZScoreRequest)
    (log log' : CallLog) (status : Z) :
  endpoint_evaluate yf request log = (inr status, log') ->
  (status = 400%Z /\ log' = log
   /\ valid_industry_type (req_industry_type request) = false)
  \/ (status = 422%Z /\ log' = (log ++ [req_ticker request])%list
      /\ Company.__init__ yf (req_ticker request) (req_industry_type request) log
         = (Raise RuntimeError, log'))
  \/ (exists company,
        Company.__init__ yf (req_ticker request) (req_industry_type request) log
        = (Ok company, log')
        /\ ((status = 500%Z
             /\ exists e, lookup_error e /\ evaluate_fetched request company = Raise e)
            \/ (status = 400%Z /\ merton_evaluate company = Ok merton_fallback))).
Proof.
  unfold endpoint_evaluate, evaluate_company.
  destruct (company_init_cases yf (req_ticker request) (req_industry_type request) log)
    as [[Hv H] | [(Hv & _ & H) | (Hv & obj & price & rest & shares & _ & _ & _ & H)]];
    rewrite H.
  - intros [= <- <-]. left. auto.
  - intros [= <- <-]. right; left. auto.
  - destruct (evaluate_fetched request _) as [response | e] eqn:E; [discriminate |].
    intros [= <- <-]. right; right. eexists. split; [reflexivity |].
    destruct (evaluate_fetched_raises _ _ _ Hv E) as [[Hl _] | [-> Hm]].
    + left. split; [destruct Hl as [-> | ->]; reflexivity | eauto].
    + right. auto.
Qed.

Lemma endpoint_statuses_witness :
  endpoint_evaluate yf_demo {| req_ticker := "NOPE"; req_industry_type := 2 |} []
  = (inr 422%Z, ["NOPE"])
  /\ Company.__init__ yf_demo "NOPE" 2 [] = (Raise RuntimeError, ["NOPE"]).
Proof.
  split; [reflexivity |].
  destruct (endpoint_statuses yf_demo
              {| req_ticker := "NOPE"; req_industry_type := 2 |} [] ["NOPE"] 422
              eq_refl)
    as [(H & _) | [(_ & _ & H) | (company & H & _)]];
    [discriminate | exact H | discriminate].
Defined.

(** ** What a response holds *)

Lemma for_industry_type_name (industry_type : Z) (model : AltmanValuationModel) :
  for_industry_type industry_type = Ok model ->
  (industry_type = 1%Z /\ model_name model = "AltmanClassic")
  \/ (industry_type = 2%Z /\ model_name model = "AltmanPrime")
  \/ (industry_type = 3%Z /\ model_name model = "AltmanEmergingMarkets").
Proof.
  unfold for_industry_type.
  destruct (Z.eqb_spec industry_type 1); [intros [= <-]; auto |].
  destruct (Z.eqb_spec industry_type 2); [intros [= <-]; auto |].
  destruct (Z.eqb_spec industry_type 3); [intros [= <-]; auto | discriminate].
Qed.

(** X8: every response the orchestrator returns echoes the ticker of the
    request, names the model of the requested industry code, reports the
    score rounded to four decimals and the ratios the model computed, but
    the classification of the unrounded score; its Merton part has all
    three fields, with the classification of the reported probability, and
    the decision is the combination of the two classifications. *)
Theorem response_contents (yf : Provider) (request : ZScoreRequest)
    (log log' : CallLog) (response : ZScoreResponse) :
  evaluate_company yf request log = (Ok response, log') ->
  exists company model z ratios,
    Company.__init__ yf (req_ticker request) (req_industry_type request) log
    = (Ok company, log')
    /\ for_industry_type (req_industry_type request) = Ok model
    /\ compute model company = Ok (z, ratios)
    /\ resp_ticker response = req_ticker request
    /\ resp_model_name response = model_name model
    /\ resp_z_score response = round z 4
    /\ resp_classification response = classify model z
    /\ resp_ratios response = RatiosDetail_new ratios
    /\ merton_evaluate company
       = Ok [("distance_to_default", VFloat (distance_to_default (resp_merton response)));
             ("default_probability", VFloat (default_probability (resp_merton response)));
             ("classification", VStr (classification (resp_merton response)))]
    /\ classification (resp_merton response)
       = _classify_merton (default_probability (resp_merton response))
    /\ combined_decision (resp_classification response)
         (classification (resp_merton response))
       = Some (resp_combined_decision response).
Proof.
  unfold evaluate_company.
  destruct (Company.__init__ _ _ _ _) as [[company | e] l]; [| discriminate].
  intros [= H <-].
  unfold evaluate_fetched in H.
  apply bind_ok in H as (model & Hmodel & H).
  apply bind_ok in H as (altman & Halt & H).
  apply bind_ok in H as (merton & Hm & H).
  apply bind_ok in H as (cls & Hcls & H).
  apply bind_ok in H as (detail & Hdet & H).
  unfold Models.evaluate in Halt.
  apply bind_ok in Halt as ([z ratios] & Hc & Halt). injection Halt as <-.
  cbn [fst snd a_z_score a_classification a_model_name a_ratios] in *.
  destruct (merton_evaluate_ok _ _ Hm) as (assets & v & d & _ & _ & _ & ->).
  destruct (merton_detail_cases (std (dropna (pct_change assets))) v d)
    as [(_ & _ & E) | (_ & dd & p & F & E)]; rewrite E in Hdet; [discriminate |].
  injection Hdet as <-.
  rewrite F in Hcls. injection Hcls as <-.
  unfold ZScoreResponse_new in H.
  destruct (combined_decision (classify model z) (_classify_merton p)) as [dec |] eqn:Hd;
    [| discriminate].
  injection H as <-.
  exists company, model, z, ratios. cbn.
  rewrite Hm, F. repeat split; assumption || reflexivity.
Qed.

Lemma response_contents_witness :
  exists response,
    evaluate_company yf_demo {| req_ticker := "SWG"; req_industry_type := 1 |} []
    = (Ok response, ["SWG"])
    /\ resp_ticker response = "SWG"
    /\ resp_model_name response = "AltmanClassic".
Proof.
  destruct swing_completes as [response H].
  destruct (response_contents _ _ _ _ _ H)
    as (company & model & z & ratios & _ & Hmodel & _ & Ht & Hn & _).
  exists response. split; [exact H | split; [exact Ht |]].
  rewrite Hn. change (for_industry_type 1) with (Ok AltmanClassic) in Hmodel.
  now injection Hmodel as <-.
Defined.

(** ** Rounding *)

Lemma rint_error (y : R) : Rabs (IZR (rint y) - y) <= 1 / 2.
Proof.
  unfold rint. destruct (base_Int_part y) as [Hlo Hhi].
  set (f := Int_part y) in *.
  destruct (Rlt_dec (y - IZR f) (1 / 2)) as [H1 | H1].
  - rewrite (proj2 (Rltb_lt _ _) H1). apply Rabs_le. lra.
  - rewrite (proj2 (Rltb_ge _ _)) by lra.
    destruct (Rlt_dec (1 / 2) (y - IZR f)) as [H2 | H2].
    + rewrite (proj2 (Rltb_lt _ _) H2). rewrite plus_IZR. apply Rabs_le. lra.
    + rewrite (proj2 (Rltb_ge _ _)) by lra.
      destruct (Z.even f); [| rewrite plus_IZR]; apply Rabs_le; lra.
Qed.

Lemma rint_IZR (k : Z) : rint (IZR k) = k.
Proof.
  unfold rint.
  assert (E : Int_part (IZR k) = k).
  { symmetry. apply Int_part_spec. lra. }
  rewrite E. rewrite (proj2 (Rltb_lt _ _)) by lra. reflexivity.
Qed.

Lemma pow10_pos (n : nat) : 0 < 10 ^ n.
Proof. apply pow_lt. lra. Qed.

(** [round(x, ndigits)] on a finite value returns a finite value within
    half a unit of the last kept decimal; it returns a multiple of that unit
    unchanged, so rounding twice is rounding once; and it returns the
    infinities and NaN unchanged. *)
Lemma round_accuracy (a : float) (ndigits : nat) :
  (forall x, a = Fin x ->
     exists y, round a ndigits = Fin y /\ Rabs (y - x) <= / 2 * / 10 ^ ndigits)
  /\ (forall k : Z, round (Fin (IZR k / 10 ^ ndigits)) ndigits = Fin (IZR k / 10 ^ ndigits))
  /\ round (round a ndigits) ndigits = round a ndigits
  /\ (is_finite a = false -> round a ndigits = a).
Proof.
  pose proof (pow10_pos ndigits) as Hp.
  assert (Hk : forall k : Z,
             round (Fin (IZR k / 10 ^ ndigits)) ndigits = Fin (IZR k / 10 ^ ndigits)).
  { intros k. unfold round.
    replace (IZR k / 10 ^ ndigits * 10 ^ ndigits) with (IZR k) by (field; lra).
    now rewrite rint_IZR. }
  split; [| split; [exact Hk | split]].
  - intros x ->. eexists. split; [reflexivity |].
    pose proof (rint_error (x * 10 ^ ndigits)) as He.
    replace (IZR (rint (x * 10 ^ ndigits)) / 10 ^ ndigits - x)
      with ((IZR (rint (x * 10 ^ ndigits)) - x * 10 ^ ndigits) * / 10 ^ ndigits)
      by (field; lra).
    rewrite Rabs_mult, (Rabs_pos_eq (/ 10 ^ ndigits))
      by (left; apply Rinv_0_lt_compat, Hp).
    apply Rmult_le_compat_r; [left; apply Rinv_0_lt_compat, Hp | lra].
  - destruct a as [x | | |]; try reflexivity.
    unfold round at 2. apply Hk.
  - destruct a; [discriminate | reflexivity ..].
Qed.

Lemma round_within (x : R) (ndigits : nat) (bound : R) :
  / 2 * / 10 ^ ndigits <= bound ->
  exists y, round (Fin x) ndigits = Fin y /\ Rabs (y - x) <= bound.
Proof.
  intros Hb.
  destruct (proj1 (round_accuracy (Fin x) ndigits) x eq_refl) as (y & Hy & He).
  exists y. split; [exact Hy | lra].
Qed.

(** X9: what a successful Altman evaluation reports is close to what was
    computed.  For a finite score the reported [z_score] is finite and
    within 0.00005 of it, each finite ratio is reported within 0.0000005,
    and an infinite or NaN score or ratio is reported as it is; the zone is
    the one of the computed score, not of the reported one. *)
Theorem reported_values_accuracy (model : AltmanValuationModel) (company : Company)
    (altman : AltmanEvaluation) :
  Models.evaluate model company = Ok altman ->
  exists z a1 a2 a3 a4 a5,
    compute model company = Ok (z, mk_ratios a1 a2 a3 a4 a5)
    /\ a_ratios altman = mk_ratios a1 a2 a3 a4 a5
    /\ Company.x1 company = Ok a1 /\ Company.x2 company = Ok a2
    /\ Company.x3 company = Ok a3 /\ Company.x5 company = Ok a5
    /\ match model with
       | AltmanClassic => Company.x4 company
       | _ => Company.x4_mod company
       end = Ok a4
    /\ a_classification altman = classify model z
    /\ (forall x, z = Fin x ->
          exists y, a_z_score altman = Fin y /\ Rabs (y - x) <= 0.00005)
    /\ (is_finite z = false -> a_z_score altman = z)
    /\ (forall (a : float) (reported : float),
          In (a, reported)
            [(a1, r_x1 (a_ratios altman)); (a2, r_x2 (a_ratios altman));
             (a3, r_x3 (a_ratios altman)); (a4, r_x4 (a_ratios altman));
             (a5, r_x5 (a_ratios altman))] ->
          (forall x, a = Fin x ->
             exists y, reported = Fin y /\ Rabs (y - x) <= 0.0000005)
          /\ (is_finite a = false -> reported = a)).
Proof.
  unfold Models.evaluate. intros H.
  apply bind_ok in H as ([z rs] & Hc & H). injection H as <-.
  cbn [fst snd a_z_score a_classification a_ratios].
  assert (Hr : exists a1 a2 a3 a4 a5,
             rs = mk_ratios a1 a2 a3 a4 a5
             /\ Company.x1 company = Ok a1 /\ Company.x2 company = Ok a2
             /\ Company.x3 company = Ok a3 /\ Company.x5 company = Ok a5
             /\ match model with
                | AltmanClassic => Company.x4 company
                | _ => Company.x4_mod company
                end = Ok a4).
  { unfold compute in Hc.
    destruct model;
      apply bind_ok in Hc as (a1 & E1 & Hc);
      apply bind_ok in Hc as (a2 & E2 & Hc);
      apply bind_ok in Hc as (a3 & E3 & Hc);
      apply bind_ok in Hc as (a4 & E4 & Hc);
      apply bind_ok in Hc as (a5 & E5 & Hc);
      injection Hc as _ <-; exists a1, a2, a3, a4, a5; auto 10. }
  destruct Hr as (a1 & a2 & a3 & a4 & a5 & -> & E1 & E2 & E3 & E5 & E4).
  exists z, a1, a2, a3, a4, a5.
  assert (Hround : forall (a : float) (n : nat) (bound : R),
             / 2 * / 10 ^ n <= bound ->
             (forall x, a = Fin x ->
                exists y, round a n = Fin y /\ Rabs (y - x) <= bound)
             /\ (is_finite a = false -> round a n = a)).
  { intros a n bound Hb. split.
    - intros x ->. now apply round_within.
    - apply round_accuracy. }
  refine (conj Hc (conj eq_refl (conj E1 (conj E2 (conj E3 (conj E5
           (conj E4 (conj eq_refl (conj _ (conj _ _)))))))))).
  - apply (Hround z 4%nat 0.00005). simpl. lra.
  - apply (Hround z 4%nat 0.00005). simpl. lra.
  - intros a reported H.
    cbn [mk_ratios r_x1 r_x2 r_x3 r_x4 r_x5] in H.
    destruct H as [H | [H | [H | [H | [H | []]]]]];
      injection H as <- <-; apply (Hround _ 6%nat 0.0000005); simpl; lra.
Qed.

(** ** Order and symmetry *)

(** X10: the classifiers are monotone.  A higher Z-score is never put in a
    less safe zone by [classify], in any variant, and a higher default
    probability is never put in a safer zone by [_classify_merton]. *)
Theorem classifiers_monotone :
  (forall (self : AltmanValuationModel) (z1 z2 : R),
      z1 <= z2 ->
      (zone_rank (classify self (Fin z1)) <= zone_rank (classify self (Fin z2)))%nat)
  /\ (forall p1 p2 : R,
      p1 <= p2 ->
      (zone_rank (_classify_merton (Fin p2)) <= zone_rank (_classify_merton (Fin p1)))%nat).
Proof.
  split.
  - intros self z1 z2 Hle. pose proof (thresholds_ordered self) as Hord.
    destruct (classify_cases self z1) as [[H1 E1] | [[H1 E1] | [H1 E1]]];
      destruct (classify_cases self z2) as [[H2 E2] | [[H2 E2] | [H2 E2]]];
      rewrite E1, E2; simpl; auto with arith; lra.
  - intros p1 p2 Hle.
    destruct (classify_merton_cases p1) as [[H1 E1] | [[H1 E1] | [H1 E1]]];
      destruct (classify_merton_cases p2) as [[H2 E2] | [[H2 E2] | [H2 E2]]];
      rewrite E1, E2; simpl; auto with arith; lra.
Qed.

(** X11: [combined_decision] is symmetric in its two arguments, for all
    strings, zone labels or not. *)
Theorem combined_decision_symmetric (altman_cls merton_cls : string) :
  combined_decision altman_cls merton_cls = combined_decision merton_cls altman_cls.
Proof.
  unfold combined_decision.
  destruct (altman_cls =? "Distress Zone")%string eqn:Ead;
    destruct (merton_cls =? "Distress Zone")%string eqn:Emd;
    destruct (altman_cls =? "Safe Zone")%string eqn:Eas;
    destruct (merton_cls =? "Safe Zone")%string eqn:Ems;
    destruct (altman_cls =? "Grey Zone")%string eqn:Eag;
    destruct (merton_cls =? "Grey Zone")%string eqn:Emg;
    simpl; try reflexivity;
    repeat match goal with
           | H : (_ =? _)%string = true |- _ => apply String.eqb_eq in H
           end;
    congruence.
Qed.

(** X12: on zone labels the decision is monotone: making either
    classification safer never makes the decision less favourable, in the
    order Dismissed, Analysis Required, Approved with Caution, Approved. *)
Theorem combined_decision_monotone (a a' m m' : string) :
  In a zones -> In a' zones -> In m zones -> In m' zones ->
  (zone_rank a <= zone_rank a')%nat ->
  (zone_rank m <= zone_rank m')%nat ->
  (decision_rank (combined_decision a m)
   <= decision_rank (combined_decision a' m'))%nat.
Proof.
  unfold zones.
  intros [<- | [<- | [<- | []]]] [<- | [<- | [<- | []]]]
         [<- | [<- | [<- | []]]] [<- | [<- | [<- | []]]];
    cbv [zone_rank decision_rank combined_decision String.eqb Ascii.eqb Bool.eqb
           orb andb];
    intros Ha Hm; lia.
Qed.

Lemma combined_decision_monotone_witness :
  (decision_rank (combined_decision "Grey Zone" "Grey Zone")
   <= decision_rank (combined_decision "Safe Zone" "Grey Zone"))%nat.
Proof.
  apply combined_decision_monotone;
    try (unfold zones; simpl; auto 6; fail);
    vm_compute; lia.
Defined.

(** ** Scores that are not numbers *)

Lemma mul_nan_r (a : float) : (a * NaN)%float = NaN.
Proof. now destruct a. Qed.

Lemma is_nan_eq (a : float) : is_nan a = true -> a = NaN.
Proof. destruct a; simpl; congruence. Qed.

Lemma classify_nan (self : AltmanValuationModel) : classify self NaN = "Distress Zone".
Proof. reflexivity. Qed.

(** X13: a NaN among the ratios a variant uses (x1, x2, x3, its x4, and x5
    except in the emerging-markets variant) makes the Z-score NaN, and a NaN
    score is classified Distress Zone: the evaluation succeeds and reports
    that zone. *)
Theorem nan_ratio_distress (model : AltmanValuationModel) (company : Company)
    (a1 a2 a3 a4 a4m a5 : float) :
  Company.x1 company = Ok a1 ->
  Company.x2 company = Ok a2 ->
  Company.x3 company = Ok a3 ->
  Company.x4 company = Ok a4 ->
  Company.x4_mod company = Ok a4m ->
  Company.x5 company = Ok a5 ->
  is_nan a1 || is_nan a2 || is_nan a3
  || match model with
     | AltmanClassic => is_nan a4 || is_nan a5
     | AltmanPrime => is_nan a4m || is_nan a5
     | AltmanEmergingMarkets => is_nan a4m
     end = true ->
  exists altman,
    Models.evaluate model company = Ok altman
    /\ a_z_score altman = NaN
    /\ a_classification altman = "Distress Zone".
Proof.
  intros H1 H2 H3 H4 H4m H5 Hnan.
  unfold Models.evaluate, compute.
  destruct model; rewrite H1, H2, H3, ?H4, ?H4m, H5; cbn [bind];
    eexists; (split; [reflexivity |]); cbn [a_z_score a_classification fst];
    repeat (apply orb_true_iff in Hnan as [Hnan | Hnan]);
    apply is_nan_eq in Hnan; subst;
    rewrite ?mul_nan_r, ?add_nan_r; cbn [Float.add];
    rewrite ?add_nan_r; cbn [Float.add]; rewrite ?add_nan_r; cbn [Float.add];
    rewrite ?add_nan_r; split; reflexivity.
Qed.

(** Zero working capital over zero total assets. *)
Lemma nan_ratio_distress_witness :
  let company :=
    company_of "NUL" 1 (sheet [Fin 0] 0 200 400 100 500) (income 150 800) in
  exists altman,
    Models.evaluate AltmanClassic company = Ok altman
    /\ a_z_score altman = NaN
    /\ a_classification altman = "Distress Zone".
Proof.
  intros company.
  apply (nan_ratio_distress AltmanClassic company
           NaN PInf PInf (Fin (10 * 50 / 400)) (Fin (500 / 400)) PInf);
    ratio_eval; reflexivity.
Defined.

(** ** Constant total assets *)

Lemma pct_from_constant (a : R) (k : nat) :
  a <> 0 -> pct_from (Fin a) (repeat (Fin a) k) = repeat (Fin 0) k.
Proof.
  intros Ha. induction k as [| k IH]; simpl; [reflexivity |].
  rewrite (proj2 (Reqb_neq a 0)) by exact Ha. simpl. rewrite IH.
  f_equal. f_equal. field. exact Ha.
Qed.

Lemma dropna_zeros (k : nat) : dropna (repeat (Fin 0) k) = repeat (Fin 0) k.
Proof. unfold dropna. induction k as [| k IH]; simpl; [| rewrite IH]; reflexivity. Qed.

Lemma sum_constant_zero (f : float -> float) (k : nat) :
  f (Fin 0) = Fin 0 -> sum (map f (repeat (Fin 0) k)) = Fin 0.
Proof.
  intros Hf. unfold sum. rewrite map_repeat, Hf.
  induction k as [| k IH]; simpl; [reflexivity |].
  replace (0 + 0) with 0 by lra. exact IH.
Qed.

Lemma std_zeros (k : nat) : (2 <= k)%nat -> std (repeat (Fin 0) k) = Fin 0.
Proof.
  intros Hk. unfold std, mean. rewrite repeat_length.
  rewrite (proj2 (Nat.ltb_ge k 2) Hk).
  assert (Hsum : sum (repeat (Fin 0) k) = Fin 0).
  { rewrite <- (map_id (repeat (Fin 0) k)). now apply sum_constant_zero. }
  assert (Hk0 : IZR (Z.of_nat k) <> 0).
  { apply not_0_IZR. lia. }
  assert (Hk1 : IZR (Z.of_nat (k - 1)) <> 0).
  { apply not_0_IZR. lia. }
  assert (Hmean : (Fin 0 / of_Z (Z.of_nat k))%float = Fin 0).
  { unfold of_Z. simpl. rewrite (proj2 (Reqb_neq _ 0)) by exact Hk0.
    f_equal. field. exact Hk0. }
  assert (Hvar : (Fin 0 / of_Z (Z.of_nat (k - 1)))%float = Fin 0).
  { unfold of_Z. simpl. rewrite (proj2 (Reqb_neq _ 0)) by exact Hk1.
    f_equal. field. exact Hk1. }
  rewrite Hsum, Hmean.
  rewrite sum_constant_zero by (simpl; f_equal; lra).
  rewrite Hvar. unfold Float.sqrt.
  rewrite (proj2 (Rleb_le 0 0)) by lra. now rewrite sqrt_0.
Qed.

Lemma constant_history_sigma (a : R) (k : nat) :
  a <> 0 -> (2 <= k)%nat ->
  std (dropna (pct_change (repeat (Fin a) (S k)))) = Fin 0.
Proof.
  intros Ha Hk. simpl. rewrite pct_from_constant by exact Ha.
  change (dropna (NaN :: repeat (Fin 0) k)) with (dropna (repeat (Fin 0) k)).
  rewrite dropna_zeros. now apply std_zeros.
Qed.

(** X14: a company whose total assets are the same non-zero amount in all
    of three or more periods has volatility zero, so the Merton model
    returns its fallback whatever V and D are, and the orchestrator never
    returns a response for it. *)
Theorem constant_assets_never_evaluated (company : Company) (a : R) (k : nat)
    (d : float) :
  loc (_bs company) "Total Assets" = Ok (repeat (Fin a) (S k)) ->
  a <> 0 -> (2 <= k)%nat ->
  current_liabilities company = Ok d ->
  merton_evaluate company = Ok merton_fallback
  /\ forall request response, evaluate_fetched request company <> Ok response.
Proof.
  intros Hl Ha Hk Hd.
  assert (Hm : merton_evaluate company = Ok merton_fallback).
  { unfold merton_evaluate, total_assets, bs_item. rewrite Hl. cbn [bind].
    rewrite constant_history_sigma by assumption.
    cbn [repeat iloc0 bind]. rewrite Hd. cbn [bind].
    rewrite merton_of_degenerate; [reflexivity |].
    unfold Float.eqb. now rewrite (proj2 (Reqb_eq 0 0)). }
  split; [exact Hm |].
  intros request response H. unfold evaluate_fetched in H.
  apply bind_ok in H as (model & _ & H).
  apply bind_ok in H as (altman & _ & H).
  rewrite Hm in H. cbn [bind] in H.
  apply bind_ok in H as (cls & _ & H).
  apply bind_ok in H as (detail & Hdet & _).
  discriminate.
Qed.

Lemma constant_assets_never_evaluated_witness :
  merton_evaluate flat = Ok merton_fallback
  /\ forall request response, evaluate_fetched request flat <> Ok response.
Proof.
  apply (constant_assets_never_evaluated flat 1000 3 (Fin 500));
    try reflexivity; try lra; lia.
Defined.

(** ** The dashboard in front of the backend *)

Lemma split_ascii (sep : Ascii.ascii) (s : string) :
  is_ascii s = true -> Forall (fun piece => is_ascii piece = true) (split sep s).
Proof.
  induction s as [| c s IH]; simpl; [repeat constructor |].
  intros H. apply andb_true_iff in H as [Hc Hs]. specialize (IH Hs).
  destruct (Ascii.eqb c sep); [constructor; [reflexivity | exact IH] |].
  destruct (split sep s) as [| piece pieces]; [repeat constructor; simpl; now rewrite Hc |].
  inversion IH as [| ? ? Hp Hps]; subst.
  constructor; [simpl; now rewrite Hc, Hp | exact Hps].
Qed.

Lemma strip_ascii (s : string) : is_ascii s = true -> is_ascii (strip s) = true.
Proof. intros H. unfold strip. now apply rstrip_ascii, lstrip_ascii. Qed.

Lemma validate_stripped (piece : string) :
  truthy (strip piece) = true ->
  validate_ticker (upper (strip piece)) = Ok (upper (strip piece)).
Proof.
  unfold truthy, validate_ticker. intros H.
  rewrite strip_upper, strip_idem, upper_idem.
  destruct (String.eqb_spec (upper (strip piece)) "") as [E | E]; [| reflexivity].
  apply upper_empty in E. rewrite E in H. discriminate.
Qed.

Lemma ints_length (int : string -> option Z) (values : list string) (ns : list Z) :
  ints int values = Some ns -> List.length ns = List.length values.
Proof.
  revert ns. induction values as [| v rest IH]; simpl; intros ns.
  - now intros [= <-].
  - destruct (int v); [| discriminate].
    destruct (ints int rest) as [ns' |]; [| discriminate].
    intros [= <-]. simpl. f_equal. now apply IH.
Qed.

Lemma filter_nil {A : Type} (f : A -> bool) (l : list A) :
  filter f l = [] -> Forall (fun x => f x = false) l.
Proof.
  induction l as [| x l IH]; simpl; [constructor |].
  destruct (f x) eqn:E; [discriminate |]. intros H. constructor; auto.
Qed.

Lemma combine_Forall {A B : Type} (P : A -> Prop) (Q : B -> Prop)
    (l : list A) (l' : list B) :
  Forall P l -> Forall Q l' -> Forall (fun p => P (fst p) /\ Q (snd p)) (combine l l').
Proof.
  intros Hl. revert l'. induction Hl as [| x l Hx Hl IH]; intros l' Hl'; simpl;
    [constructor |].
  destruct Hl' as [| y l' Hy Hl']; constructor; simpl; auto.
Qed.

(** X15: whatever the dashboard sends is accepted by the request schema as
    it is.  When the input handling of the page does not stop, for ASCII
    input, there is at least one (ticker, industry type) pair, and every
    pair builds a [ZScoreRequest] carrying exactly that ticker and that
    code: the ticker is already in normal form and the code is 1, 2 or 3. *)
Theorem dashboard_requests_valid (int : string -> option Z)
    (tickers_raw industry_raw : string) (pairs : list (string * Z)) :
  is_ascii tickers_raw = true ->
  is_ascii industry_raw = true ->
  parse_inputs int tickers_raw industry_raw = inr pairs ->
  pairs <> []
  /\ Forall (fun p =>
       is_ascii (fst p) = true
       /\ ZScoreRequest_new (fst p) (snd p)
          = Ok {| req_ticker := fst p; req_industry_type := snd p |}) pairs.
Proof.
  intros Hascii _. unfold parse_inputs.
  set (pieces := filter (fun t => truthy (strip t)) (split comma tickers_raw)).
  set (raw_types := map strip
         (filter (fun i => truthy (strip i)) (split comma industry_raw))).
  assert (Ht : Forall (fun t => is_ascii t = true
                               /\ validate_ticker t = Ok t)
                 (map (fun t => upper (strip t)) pieces)).
  { apply Forall_map. apply Forall_forall. intros piece Hin.
    apply filter_In in Hin as [Hin Htruthy]. split.
    - rewrite upper_ascii. apply strip_ascii.
      pose proof (split_ascii comma tickers_raw Hascii) as Hall.
      rewrite Forall_forall in Hall. now apply Hall.
    - now apply validate_stripped. }
  destruct (map (fun t => upper (strip t)) pieces) as [| t0 ts] eqn:Etick;
    [discriminate |].
  destruct raw_types as [| r0 rs] eqn:Eraw; [discriminate |].
  destruct (negb (List.length (r0 :: rs) =? List.length (t0 :: ts))%nat) eqn:Elen;
    [discriminate |].
  destruct (ints int (r0 :: rs)) as [types |] eqn:Eints; [| discriminate].
  destruct (filter (fun v => negb (valid_industry_type v)) types) eqn:Einv;
    [| discriminate].
  intros [= <-].
  apply ints_length in Eints.
  apply negb_false_iff, Nat.eqb_eq in Elen.
  destruct types as [| n0 ns]; [discriminate |].
  split; [discriminate |].
  apply filter_nil in Einv.
  pose proof (combine_Forall _ _ _ _ Ht Einv) as Hall.
  eapply Forall_impl; [| exact Hall].
  intros [t v] [[Ha Hv] Hn]. simpl in *. split; [exact Ha |].
  unfold ZScoreRequest_new, validate_industry_type.
  rewrite Hv, Hn. reflexivity.
Qed.

Lemma dashboard_requests_valid_witness :
  parse_inputs int_digit "aapl, msft ,," " 2,1" = inr [("AAPL", 2%Z); ("MSFT", 1%Z)]
  /\ ZScoreRequest_new "MSFT" 1 = Ok {| req_ticker := "MSFT"; req_industry_type := 1 |}.
Proof.
  split; [reflexivity |].
  destruct (dashboard_requests_valid int_digit "aapl, msft ,," " 2,1"
              [("AAPL", 2%Z); ("MSFT", 1%Z)] eq_refl eq_refl eq_refl) as [_ H].
  inversion H as [| ? ? _ H']. inversion H' as [| ? ? [_ Hm] _]. exact Hm.
Defined.

(** X16: the colour tables of the dashboard have an entry for exactly the
    three zone labels, resp. the four decisions; hence every classification
    either classifier returns and every decision the combiner returns is
    found in them. *)
Theorem dashboard_tables_cover :
  (forall key,
      In key zones
      <-> ((exists colour, getitem CLASSIFICATION_COLORS key = Some colour)
           /\ (exists bg, getitem CLASSIFICATION_BG key = Some bg)))
  /\ (forall key,
      In key decisions
      <-> ((exists colour, getitem DECISION_COLORS key = Some colour)
           /\ (exists bg, getitem DECISION_BG key = Some bg)))
  /\ (forall (self : AltmanValuationModel) (z : float),
      getitem CLASSIFICATION_COLORS (classify self z) <> None
      /\ getitem CLASSIFICATION_BG (classify self z) <> None)
  /\ (forall p : float,
      getitem CLASSIFICATION_COLORS (_classify_merton p) <> None
      /\ getitem CLASSIFICATION_BG (_classify_merton p) <> None)
  /\ (forall a m d : string,
      combined_decision a m = Some d ->
      getitem DECISION_COLORS d <> None /\ getitem DECISION_BG d <> None).
Proof.
  assert (Hz : forall key,
      In key zones
      <-> ((exists colour, getitem CLASSIFICATION_COLORS key = Some colour)
           /\ (exists bg, getitem CLASSIFICATION_BG key = Some bg))).
  { intros key. unfold zones, CLASSIFICATION_COLORS, CLASSIFICATION_BG.
    cbn [getitem In].
    destruct (String.eqb_spec "Distress Zone" key) as [<- | Hd];
      [split; [eauto | auto 6] |].
    destruct (String.eqb_spec "Safe Zone" key) as [<- | Hs];
      [split; [eauto | auto 6] |].
    destruct (String.eqb_spec "Grey Zone" key) as [<- | Hg];
      [split; [eauto | auto 6] |].
    split; [intuition congruence | intros [[c Hc] _]; discriminate]. }
  assert (Hd : forall key,
      In key decisions
      <-> ((exists colour, getitem DECISION_COLORS key = Some colour)
           /\ (exists bg, getitem DECISION_BG key = Some bg))).
  { intros key. unfold decisions, DECISION_COLORS, DECISION_BG.
    cbn [getitem In].
    destruct (String.eqb_spec "Approved" key) as [<- | H1];
      [split; [eauto | auto 6] |].
    destruct (String.eqb_spec "Approved with Caution" key) as [<- | H2];
      [split; [eauto | auto 6] |].
    destruct (String.eqb_spec "Analysis Required" key) as [<- | H3];
      [split; [eauto | auto 6] |].
    destruct (String.eqb_spec "Dismissed" key) as [<- | H4];
      [split; [eauto | auto 6] |].
    split; [intuition congruence | intros [[c Hc] _]; discriminate]. }
  assert (Hzone : forall key, In key zones ->
            getitem CLASSIFICATION_COLORS key <> None
            /\ getitem CLASSIFICATION_BG key <> None).
  { intros key Hin. apply Hz in Hin as [[c Hc] [b Hb]].
    rewrite Hc, Hb. split; discriminate. }
  split; [exact Hz | split; [exact Hd | split; [| split]]].
  - intros self z. apply Hzone, classify_in_zones.
  - intros p. apply Hzone, classify_merton_in_zones.
  - intros a m d H. apply combined_decision_some in H as [Hin _].
    apply Hd in Hin as [[c Hc] [b Hb]]. rewrite Hc, Hb. split; discriminate.
Qed.

(** ** Infinite ratios *)

(** X17: when the x4 a variant uses is plus infinity (total liabilities
    zero under a positive equity figure) and the other ratios are finite,
    the Z-score is plus infinity and the company is put in the Safe Zone,
    whatever the finite ratios are. *)
Theorem infinite_x4_safe (model : AltmanValuationModel) (company : Company)
    (a1 a2 a3 a5 : R) (a4 a4m : float) :
  Company.x1 company = Ok (Fin a1) ->
  Company.x2 company = Ok (Fin a2) ->
  Company.x3 company = Ok (Fin a3) ->
  Company.x4 company = Ok a4 ->
  Company.x4_mod company = Ok a4m ->
  Company.x5 company = Ok (Fin a5) ->
  match model with AltmanClassic => a4 | _ => a4m end = PInf ->
  exists altman,
    Models.evaluate model company = Ok altman
    /\ a_z_score altman = PInf
    /\ a_classification altman = "Safe Zone".
Proof.
  intros H1 H2 H3 H4 H4m H5 Hinf.
  unfold Models.evaluate, compute.
  destruct model; rewrite H1, H2, H3, ?H4, ?H4m, H5; cbn [bind]; subst;
    eexists; (split; [reflexivity |]); cbn [a_z_score a_classification fst];
    float_eval; split; reflexivity.
Qed.

(** No liabilities, positive equity, and a negative working capital. *)
Lemma infinite_x4_safe_witness :
  let company :=
    company_of "DBT" 1 (sheet [Fin 1000] (-900) (-500) 0 100 500) (income (-150) 800) in
  exists altman,
    Models.evaluate AltmanClassic company = Ok altman
    /\ a_z_score altman = PInf
    /\ a_classification altman = "Safe Zone".
Proof.
  intros company.
  apply (infinite_x4_safe AltmanClassic company
           (-900 / 1000) (-500 / 1000) (-150 / 1000) (800 / 1000) PInf PInf);
    ratio_eval; reflexivity.
Defined.

(** The reported score of the scenario of the specification. *)
Lemma reported_values_accuracy_witness :
  exists altman y,
    Models.evaluate AltmanClassic aaa = Ok altman
    /\ a_z_score altman = Fin y
    /\ Rabs (y - 2.685) <= 0.00005.
Proof.
  destruct aaa_end_to_end as (ratios & Hc & _).
  assert (He : exists altman, Models.evaluate AltmanClassic aaa = Ok altman).
  { unfold Models.evaluate. rewrite Hc. eexists. reflexivity. }
  destruct He as [altman He].
  destruct (reported_values_accuracy _ _ _ He)
    as (z & a1 & a2 & a3 & a4 & a5 & Hc' & _ & _ & _ & _ & _ & _ & _ & Hz & _).
  rewrite Hc in Hc'. injection Hc' as <- _.
  destruct (Hz 2.685 eq_refl) as (y & Hy & Hb).
  exists altman, y. auto.
Defined.
